(** * llama_cpp.server.__main__ : schema-driven command line synthesis

    A shallow embedding of [src/llama_cpp/server/__main__.py]: the type
    resolver ([get_base_type], [contains_list_type]), the boolean coercer
    ([parse_bool_arg]), the two loops that register arguments with
    [argparse], the partition of the parsed namespace and the host/port
    resolution. *)

From Stdlib Require Import ZArith List String Ascii Lia Bool.
From stdpp Require Import gmap strings list fin_maps.
From Equations Require Import Equations.
From Equations.Prop Require Import Logic.
Import ListNotations.

Local Open Scope string_scope.
Set Warnings "-register-all".

(** ** Python objects *)

(** Exceptions the script can raise. *)
Inductive exc : Type :=
| AttributeError
| IndexError
| TypeError
| UnicodeDecodeError
| ValueError (msg : string).

(** The outcome of a Python call: a value, or a raised exception. *)
Inductive result (A : Type) : Type :=
| Ret (a : A)
| Raise (e : exc).
Arguments Ret {A} a.
Arguments Raise {A} e.

(** Sequencing: an exception raised by [r] propagates. *)
Definition bind {A B : Type} (k : A -> result B) (r : result A) : result B :=
  match r with
  | Ret a => k a
  | Raise e => Raise e
  end.

#[global] Instance result_bind : MBind result := @bind.
#[global] Instance result_ret : MRet result := @Ret.

(** Classes, as far as the script tells them apart. *)
Inductive pyclass : Type :=
| c_str | c_int | c_bool | c_float | c_bytes | c_list
| c_NoneType | c_type | c_alias
| c_other (name : string).

(** The [__origin__] attribute of a subscripted form of [typing]. *)
Inductive origin : Type :=
| o_Literal
| o_Union
| o_list
| o_other (name : string).

(** The unsubscripted generics of [typing] ([List], [Dict], ...): they
    have [__origin__] but no [__args__]. *)
Inductive generic : Type :=
| g_List
| g_other (name : string).

(** Objects: literal values, classes, the aliases of [typing]
    ([Literal[..]], [Union[..]], [List[..]], ...), which carry
    [__origin__] and the tuple [__args__], and the unsubscripted
    generics. *)
Inductive pyobj : Type :=
| PNone
| PBool (b : bool)
| PInt (z : Z)
| PStr (s : string)
| PBytes (b : list Byte.byte)
| PList (items : list pyobj)
| PClass (c : pyclass)
| PAlias (o : origin) (args : list pyobj)
| PGeneric (g : generic).

(** [type(x)] *)
Definition type_of (x : pyobj) : pyclass :=
  match x with
  | PNone => c_NoneType
  | PBool _ => c_bool
  | PInt _ => c_int
  | PStr _ => c_str
  | PBytes _ => c_bytes
  | PList _ => c_list
  | PClass _ => c_type
  | PAlias _ _ => c_alias
  | PGeneric _ => c_alias
  end.

(** [x is type(None)] *)
Definition is_NoneType (x : pyobj) : bool :=
  match x with
  | PClass c_NoneType => true
  | _ => false
  end.

(** [x is bool] *)
Definition is_bool (x : pyobj) : bool :=
  match x with
  | PClass c_bool => true
  | _ => false
  end.

(** [x is None] *)
Definition is_None (x : pyobj) : bool :=
  match x with
  | PNone => true
  | _ => false
  end.

(** [getattr(x, '__origin__', None)] *)
Definition getattr_origin (x : pyobj) : option origin :=
  match x with
  | PAlias o _ => Some o
  | PGeneric g_List => Some o_list
  | PGeneric (g_other name) => Some (o_other name)
  | _ => None
  end.

(** [Optional[t]] is [Union[t, None]]. *)
Definition Optional (t : pyobj) : pyobj :=
  PAlias o_Union [t; PClass c_NoneType].

(** Size of an object, the measure of [get_base_type]. *)
Fixpoint pysize (x : pyobj) : nat :=
  match x with
  | PList items => S (list_sum (List.map pysize items))
  | PAlias _ args => S (list_sum (List.map pysize args))
  | _ => 1
  end.

Lemma pysize_In (x : pyobj) (l : list pyobj) :
  In x l -> pysize x <= list_sum (List.map pysize l).
Proof.
  induction l as [|y l IH]; simpl; intros Hin; [contradiction|].
  destruct Hin as [->|Hin]; [lia|]. specialize (IH Hin). lia.
Qed.

Lemma filter_head_In {A : Type} (f : A -> bool) (l : list A) (x : A) (r : list A) :
  List.filter f l = x :: r -> In x l.
Proof.
  intros Hf. apply (proj1 (filter_In f x l)). rewrite Hf. now left.
Qed.

(** ** The type resolver *)

(** [args[0]] on a tuple. *)
Definition item0 (args : list pyobj) : result pyobj :=
  match args with
  | a :: _ => Ret a
  | [] => Raise IndexError
  end.

(** [get_base_type(annotation)], lines 33-43.  A union whose
    [non_optional_args] is empty leaves the [if] without a [return]:
    the call returns [None].  The unsubscripted [List] has the origin
    [list] and no [__args__]: line 41 raises [AttributeError]. *)
Equations? get_base_type (annotation : pyobj) : result pyobj
  by wf (pysize annotation) lt :=
get_base_type (PAlias o_Literal args) :=
  a0 ← item0 args; Ret (PClass (type_of a0)) ;
get_base_type (PAlias o_Union args)
  with inspect (List.filter (fun arg => negb (is_NoneType arg)) args) => {
  | exist _ (a0 :: _) Hnon := get_base_type a0
  | exist _ [] _ := Ret PNone } ;
get_base_type (PAlias o_list (a0 :: _)) := get_base_type a0 ;
get_base_type (PAlias o_list []) := Raise IndexError ;
get_base_type (PGeneric g_List) := Raise AttributeError ;
get_base_type annotation := Ret annotation.
Proof.
  - apply filter_head_In in Hnon. apply pysize_In in Hnon. simpl. lia.
  - simpl. lia.
Qed.

(** [contains_list_type(annotation)], lines 45-53. *)
Fixpoint contains_list_type (annotation : pyobj) : bool :=
  match annotation with
  | PAlias o_list _ => true
  | PGeneric g_List => true
  | PAlias o_Literal args => existsb contains_list_type args
  | PAlias o_Union args => existsb contains_list_type args
  | _ => false
  end.

(** ** Builtins of the interpreter

    The script calls builtins whose tables (Unicode case mapping, white
    space and digit classes, the printing of objects) are not part of the
    repository.  They are parameters of the development.  A [string] is
    read as a text of code points below 256. *)
Section Runtime.

(** [b.decode('utf-8')] *)
Variable bytes_decode : list Byte.byte -> result string.
(** [s.lower()] *)
Variable str_lower : string -> string.
(** [s.strip()] *)
Variable str_strip : string -> string.
(** [str(x)] for an [x] that is not already a [str] *)
Variable str_of_obj : pyobj -> string.
(** [repr(x)] *)
Variable py_repr : pyobj -> string.
(** [int(s)] for a [str], [None] when [s] is not an integer literal *)
Variable int_of_str : string -> option Z.
(** [int(b)] for [bytes], likewise *)
Variable int_of_bytes : list Byte.byte -> option Z.

(** [str(x)], which is also what [f"{x}"] inserts. *)
Definition py_str (x : pyobj) : string :=
  match x with
  | PStr s => s
  | _ => str_of_obj x
  end.

(** [int(x)] *)
Definition py_int (x : pyobj) : result pyobj :=
  let parsed (o : option Z) :=
    match o with
    | Some z => Ret (PInt z)
    | None =>
        Raise (ValueError ("invalid literal for int() with base 10: " ++ py_repr x))
    end in
  match x with
  | PInt z => Ret (PInt z)
  | PBool b => Ret (PInt (if b then 1 else 0))
  | PStr s => parsed (int_of_str s)
  | PBytes b => parsed (int_of_bytes b)
  | _ => Raise TypeError
  end.

(** ** The boolean coercer *)

Definition true_values : gset string :=
  {[ "1"; "on"; "t"; "true"; "y"; "yes" ]}.
Definition false_values : gset string :=
  {[ "0"; "off"; "f"; "false"; "n"; "no" ]}.

(** [parse_bool_arg(arg)], lines 55-69. *)
Definition parse_bool_arg (arg : pyobj) : result bool :=
  arg ← match arg with
        | PBytes b => s ← bytes_decode b; Ret (PStr s)
        | _ => Ret arg
        end;
  let arg_str := str_strip (str_lower (py_str arg)) in
  if decide (arg_str ∈ true_values) then Ret true
  else if decide (arg_str ∈ false_values) then Ret false
  else Raise (ValueError ("Invalid boolean argument: " ++ py_str arg)).

(** ** Registering arguments *)

(** What is passed as [type=]: an object (a class, an alias, or [None]),
    or the function [parse_bool_arg]. *)
Inductive callable : Type :=
| call_obj (t : pyobj)
| call_parse_bool_arg.

(** One call [parser.add_argument(flag, dest=, nargs=, type=, default=,
    help=)]; a keyword the call leaves out has [argparse]'s default,
    [None]. *)
Record add_argument : Type := {
  a_flag : string;
  a_dest : option string;
  a_nargs : option string;
  a_type : callable;
  a_default : pyobj;
  a_help : option string
}.

(** A field of [Settings.model_fields]; [description] is a [str] or
    [None]. *)
Record FieldInfo : Type := {
  annotation : pyobj;
  default : pyobj;
  description : option string
}.

(** [f"{description}"] *)
Definition format_description (description : option string) : string :=
  match description with
  | Some d => d
  | None => "None"
  end.

(** Line 77: [get_base_type(field.annotation) if field.annotation is not
    None else str]. *)
Definition field_base_type (field : FieldInfo) : result pyobj :=
  if negb (is_None (annotation field))
  then get_base_type (annotation field)
  else Ret (PClass c_str).

(** How many tokens [argparse] reads for a registered flag: one when
    [nargs] is [None], any number of them when it is ["*"]. *)
Definition one_token (a : add_argument) : Prop := a_nargs a = None.
Definition any_number_of_tokens (a : add_argument) : Prop := a_nargs a = Some "*".

(** Lines 74-76: the help text of a field. *)
Definition field_description (field : FieldInfo) : option string :=
  match description field with
  | Some d =>
      if negb (is_None (default field))
      then Some (d ++ " (default: " ++ py_str (default field) ++ ")")
      else Some d
  | None => None
  end.

(** Lines 77-93: the calls [add_argument] made for a field, given its
    help text.  Whether [argparse] accepts a call is not part of the
    model: [Ret] lists the calls the script makes, each of which
    [argparse] may still refuse with an exception of its own. *)
Definition register_field (name : string) (field : FieldInfo)
    (description : option string) : result (list add_argument) :=
  base_type ← field_base_type field;
  let list_type := contains_list_type (annotation field) in
  Ret (app
       (if negb (is_bool base_type)
        then [ {| a_flag := "--" ++ name;
                  a_dest := Some name;
                  a_nargs := if list_type then Some "*" else None;
                  a_type := call_obj base_type;
                  a_default := PNone;
                  a_help := description |} ]
        else [])
       (if is_bool base_type
        then [ {| a_flag := "--" ++ name;
                  a_dest := Some name;
                  a_nargs := None;
                  a_type := call_parse_bool_arg;
                  a_default := PNone;
                  a_help := Some (format_description description) |} ]
        else [])).

(** The body of the loop over [Settings.model_fields.items()], lines
    74-93. *)
Definition compile_field (name : string) (field : FieldInfo)
  : result (list add_argument) :=
  register_field name field (field_description field).

(** The loop of lines 73-93 over the fields, in order; an exception
    leaves the loop. *)
Fixpoint compile_schema (fields : list (string * FieldInfo))
  : result (list add_argument) :=
  match fields with
  | [] => Ret []
  | (name, field) :: rest =>
      calls ← compile_field name field;
      more ← compile_schema rest;
      Ret (app calls more)
  end.

(** A parameter of [inspect.signature(uvicorn.run)]; [None] stands for
    [inspect.Parameter.empty]. *)
Record Param : Type := {
  p_annotation : option pyobj;
  p_default : option pyobj
}.

(** [s.replace('%', '%%')] *)
Fixpoint replace_percent (s : string) : string :=
  match s with
  | EmptyString => EmptyString
  | String c r =>
      if Ascii.eqb c "%"%char
      then String "%" (String "%" (replace_percent r))
      else String c (replace_percent r)
  end.

(** The body of the loop over the parameters of [uvicorn.run], lines
    97-112. *)
Definition compile_param (param_name : string) (param : Param)
  : list add_argument :=
  if String.eqb param_name "app" then []
  else
    let param_type :=
      match p_annotation param with
      | Some t => t
      | None => PClass c_str
      end in
    let param_default :=
      match p_default param with
      | Some d => d
      | None => PNone
      end in
    [ {| a_flag := "--uvicorn-" ++ param_name;
         a_dest := None;
         a_nargs := None;
         a_type := call_obj param_type;
         a_default := param_default;
         a_help := Some ("Uvicorn setting for " ++ param_name ++ " (default: "
                         ++ replace_percent (py_repr param_default) ++ ")") |} ].

(** The loop of lines 97-112. *)
Definition compile_uvicorn (params : list (string * Param))
  : list add_argument :=
  concat (List.map (fun '(param_name, param) => compile_param param_name param) params).

(** ** After parsing *)

(** [k.startswith(p)] *)
Definition startswith (k p : string) : bool := String.prefix p k.

(** [k[n:]] *)
Fixpoint slice_from (n : nat) (k : string) : string :=
  match n, k with
  | O, _ => k
  | S n', String _ r => slice_from n' r
  | S _, EmptyString => EmptyString
  end.

(** A dict comprehension [{key(k): v for k, v in d.items() if cond(k, v)}]:
    the entries are stored one after the other, a later one replacing an
    earlier one under the same key. *)
Definition dict_comprehension (key : string -> string)
    (cond : string -> pyobj -> bool) (d : gmap string pyobj)
  : gmap string pyobj :=
  foldl (fun acc '(k, v) => if cond k v then <[key k := v]> acc else acc)
        ∅ (map_to_list d).

(** The keyword arguments of [Settings(..)], line 115. *)
Definition settings_kwargs (vars_args : gmap string pyobj) : gmap string pyobj :=
  dict_comprehension (fun k => k)
    (fun k v => negb (is_None v) && negb (startswith k "uvicorn_"))
    vars_args.

(** [uvicorn_args], line 119. *)
Definition uvicorn_args (vars_args : gmap string pyobj) : gmap string pyobj :=
  dict_comprehension (fun k => slice_from 8 k)
    (fun k v => startswith k "uvicorn_" && negb (is_None v))
    vars_args.

(** [os.getenv(key, default)] *)
Definition os_getenv (environ : gmap string string) (key : string)
    (default : pyobj) : pyobj :=
  match environ !! key with
  | Some v => PStr v
  | None => default
  end.

(** [d.get(key, default)] *)
Definition dict_get (d : gmap string pyobj) (key : string) (default : pyobj)
  : pyobj :=
  match d !! key with
  | Some v => v
  | None => default
  end.

(** The right-hand side of line 122. *)
Definition launch_host (environ : gmap string string)
    (uvicorn_args : gmap string pyobj) : pyobj :=
  os_getenv environ "HOST" (dict_get uvicorn_args "host" (PStr "127.0.0.1")).

(** The right-hand side of line 123. *)
Definition launch_port (environ : gmap string string)
    (uvicorn_args : gmap string pyobj) : result pyobj :=
  py_int (os_getenv environ "PORT" (dict_get uvicorn_args "port" (PInt 8000))).

(** Lines 122-123: the two assignments into [uvicorn_args]. *)
Definition merge_environment (environ : gmap string string)
    (uvicorn_args : gmap string pyobj) : result (gmap string pyobj) :=
  let uvicorn_args := <["host" := launch_host environ uvicorn_args]> uvicorn_args in
  port ← launch_port environ uvicorn_args;
  Ret (<["port" := port]> uvicorn_args).

End Runtime.

(** ** The text builtins on code points below 256

    [str.lower], [str.strip] and [int] as CPython computes them on a text
    whose code points are all below 256; they run the examples. *)
Module Latin1.

Definition isspace (c : ascii) : bool :=
  let n := nat_of_ascii c in
  (Nat.leb 9 n && Nat.leb n 13) || (Nat.leb 28 n && Nat.leb n 32)
  || Nat.eqb n 133 || Nat.eqb n 160.

Definition lower_char (c : ascii) : ascii :=
  let n := nat_of_ascii c in
  if (Nat.leb 65 n && Nat.leb n 90)
     || (Nat.leb 192 n && Nat.leb n 222 && negb (Nat.eqb n 215))
  then ascii_of_nat (n + 32)
  else c.

Fixpoint lower (s : string) : string :=
  match s with
  | EmptyString => EmptyString
  | String c r => String (lower_char c) (lower r)
  end.

Fixpoint lstrip (s : string) : string :=
  match s with
  | EmptyString => EmptyString
  | String c r => if isspace c then lstrip r else s
  end.

Fixpoint rstrip (s : string) : string :=
  match s with
  | EmptyString => EmptyString
  | String c r =>
      match rstrip r with
      | EmptyString => if isspace c then EmptyString else String c EmptyString
      | r' => String c r'
      end
  end.

Definition strip (s : string) : string := rstrip (lstrip s).

Definition digit_value (c : ascii) : option Z :=
  let n := nat_of_ascii c in
  if Nat.leb 48 n && Nat.leb n 57 then Some (Z.of_nat (n - 48)) else None.

(** Digits, with single underscores between them; [after_digit] tells
    whether the previous character was a digit. *)
Fixpoint digits (s : string) (acc : Z) (after_digit : bool) : option Z :=
  match s with
  | EmptyString => if after_digit then Some acc else None
  | String c r =>
      match digit_value c with
      | Some d => digits r (10 * acc + d)%Z true
      | None =>
          if Ascii.eqb c "_"%char && after_digit
          then digits r acc false
          else None
      end
  end.

(** The white space [int] skips around the digits: it is that of
    [strip] without the code points 28 to 31. *)
Definition int_isspace (c : ascii) : bool :=
  let n := nat_of_ascii c in
  (Nat.leb 9 n && Nat.leb n 13) || Nat.eqb n 32
  || Nat.eqb n 133 || Nat.eqb n 160.

Fixpoint int_lstrip (s : string) : string :=
  match s with
  | EmptyString => EmptyString
  | String c r => if int_isspace c then int_lstrip r else s
  end.

Fixpoint int_rstrip (s : string) : string :=
  match s with
  | EmptyString => EmptyString
  | String c r =>
      match int_rstrip r with
      | EmptyString => if int_isspace c then EmptyString else String c EmptyString
      | r' => String c r'
      end
  end.

(** [int(s)]: white space around, an optional sign, then digits.  The
    interpreter's limit on the number of digits (4300 unless it is
    lifted) is left out. *)
Definition int_of_str (s : string) : option Z :=
  match int_rstrip (int_lstrip s) with
  | String "+"%char r => digits r 0%Z false
  | String "-"%char r => Z.opp <$> digits r 0%Z false
  | r => digits r 0%Z false
  end.

End Latin1.

(** ** Shapes and inputs of the statements *)

(** What [get_base_type] meets on its way down - the first argument of a
    list alias, the first argument of a union that is not [NoneType] - is
    subscripted: no [Literal] or [list] alias with an empty [__args__],
    no unsubscripted [List]. *)
Equations? subscripted (x : pyobj) : bool by wf (pysize x) lt :=
subscripted (PAlias o_Literal args) := negb (Nat.eqb (length args) 0) ;
subscripted (PAlias o_Union args)
  with inspect (List.filter (fun arg => negb (is_NoneType arg)) args) => {
  | exist _ (a0 :: _) Hnon := subscripted a0
  | exist _ [] _ := true } ;
subscripted (PAlias o_list (a0 :: _)) := subscripted a0 ;
subscripted (PAlias o_list []) := false ;
subscripted (PGeneric g_List) := false ;
subscripted x := true.
Proof.
  - apply filter_head_In in Hnon. apply pysize_In in Hnon. simpl. lia.
  - simpl. lia.
Qed.

(** A union whose first class after the leading [NoneType]s is [c], and
    which has a list alias further on. *)
Definition scalar_then_list (n : nat) (c : pyclass) (between : list pyobj)
    (list_args : list pyobj) (after : list pyobj) : pyobj :=
  PAlias o_Union
    (app (repeat (PClass c_NoneType) n)
         (PClass c :: app between (PAlias o_list list_args :: after))).

(** The namespace of the example: [argparse] stores the value of the flag
    [--uvicorn-reload] under the key [uvicorn_reload]. *)
Definition example_namespace : gmap string pyobj :=
  {[ "port" := PNone; "uvicorn_reload" := PStr "true"; "model" := PStr "/path" ]}.

(** An alias that [get_base_type] unwraps: its origin is [Literal],
    [Union] or [list]. *)
Definition is_wrapper (x : pyobj) : bool :=
  match getattr_origin x with
  | Some o_Literal | Some o_Union | Some o_list => true
  | _ => false
  end.

(** What a call gives back, forgetting which exception it raised. *)
Definition outcome {A : Type} (r : result A) : option A :=
  match r with
  | Ret a => Some a
  | Raise _ => None
  end.

(** A text made of white space only. *)
Fixpoint all_space (s : string) : bool :=
  match s with
  | EmptyString => true
  | String c r => Latin1.isspace c && all_space r
  end.

(** A name without the character [-], as every Python identifier is. *)
Fixpoint no_dash (s : string) : bool :=
  match s with
  | EmptyString => true
  | String c r => negb (Ascii.eqb c "-"%char) && no_dash r
  end.

(** [s.lstrip('-')] *)
Fixpoint lstrip_dash (s : string) : string :=
  match s with
  | EmptyString => EmptyString
  | String c r => if Ascii.eqb c "-"%char then lstrip_dash r else s
  end.

(** [s.replace('-', '_')] *)
Fixpoint dash_to_underscore (s : string) : string :=
  match s with
  | EmptyString => EmptyString
  | String c r =>
      String (if Ascii.eqb c "-"%char then "_"%char else c) (dash_to_underscore r)
  end.

(** The key under which [argparse], which is not part of the repository,
    stores the value of a flag registered without [dest=]: the flag
    without its leading dashes, the other dashes turned into
    underscores. *)
Definition argparse_dest (flag : string) : string :=
  dash_to_underscore (lstrip_dash flag).

(** ** Examples *)

Example isspace_table :
  List.filter (fun n => Latin1.isspace (ascii_of_nat n)) (seq 0 256)
  = [9; 10; 11; 12; 13; 28; 29; 30; 31; 32; 133; 160]%nat.
Proof. vm_compute. reflexivity. Qed.

Example lower_char_table :
  List.filter
    (fun n => negb (Nat.eqb (nat_of_ascii (Latin1.lower_char (ascii_of_nat n))) n))
    (seq 0 256)
  = (seq 65 26 ++ seq 192 23 ++ seq 216 7)%list
  /\ forallb
       (fun n => Nat.eqb (nat_of_ascii (Latin1.lower_char (ascii_of_nat n))) (n + 32))
       (seq 65 26 ++ seq 192 23 ++ seq 216 7)%list = true.
Proof. split; vm_compute; reflexivity. Qed.

Example lower_strip_ex : Latin1.strip (Latin1.lower "  TRUE ") = "true".
Proof. reflexivity. Qed.

Example int_of_str_ex :
  List.map Latin1.int_of_str [" 9_090 "; "-5"; "007"; "1__0"; "+ 5"; ""; "_1"]
  = [Some 9090%Z; Some (-5)%Z; Some 7%Z; None; None; None; None].
Proof. reflexivity. Qed.

Example int_isspace_table :
  List.filter (fun n => Latin1.int_isspace (ascii_of_nat n)) (seq 0 256)
  = [9; 10; 11; 12; 13; 32; 133; 160]%nat.
Proof. vm_compute. reflexivity. Qed.

Example int_of_str_separators :
  Latin1.int_of_str (String (ascii_of_nat 28) "5") = None
  /\ Latin1.int_of_str (String (ascii_of_nat 160) "5") = Some 5%Z.
Proof. split; reflexivity. Qed.

Example get_base_type_nested :
  get_base_type (PAlias o_list [Optional (PAlias o_Literal [PStr "a"; PStr "b"])])
  = Ret (PClass c_str).
Proof. reflexivity. Qed.

Example get_base_type_empty_literal :
  get_base_type (PAlias o_Literal []) = Raise IndexError
  /\ get_base_type (PAlias o_list []) = Raise IndexError.
Proof. split; reflexivity. Qed.

Example subscripted_nested :
  subscripted (PAlias o_list [Optional (PAlias o_Literal [PStr "a"; PStr "b"])])
  = true.
Proof. reflexivity. Qed.

(** ** Properties of the type resolver *)

(** The union clause, unfolded: the first argument that is not
    [NoneType] is resolved; without one the call returns [None]. *)
Lemma get_base_type_Union (args : list pyobj) :
  get_base_type (PAlias o_Union args) =
  match List.filter (fun arg => negb (is_NoneType arg)) args with
  | a0 :: _ => get_base_type a0
  | [] => Ret PNone
  end.
Proof.
  simp get_base_type.
  destruct (inspect _) as [[|a0 r] H]; simpl; rewrite H; reflexivity.
Qed.

Lemma get_base_type_Optional (t : pyobj) :
  is_NoneType t = false ->
  get_base_type (Optional t) = get_base_type t.
Proof.
  intros Ht. unfold Optional. rewrite get_base_type_Union. simpl.
  rewrite Ht. reflexivity.
Qed.

Lemma get_base_type_no_origin (x : pyobj) :
  getattr_origin x = None -> get_base_type x = Ret x.
Proof.
  destruct x as [| | | | | |c|o args|g]; simpl; intros Ho;
    try discriminate; try (now simp get_base_type).
  destruct g; discriminate.
Qed.

Lemma filter_repeat_NoneType (n : nat) :
  List.filter (fun arg => negb (is_NoneType arg)) (repeat (PClass c_NoneType) n) = [].
Proof. induction n as [|n IH]; simpl; [reflexivity | exact IH]. Qed.




(** C1. Resolving a list of an optional of a literal is resolving the
    literal, which gives the class of its first value; a list alias
    resolves to what its argument resolves to, and a class is returned as
    it is. *)
Theorem get_base_type_rewrapped :
  (forall t : pyobj,
      get_base_type (PAlias o_list [Optional t])
      = if is_NoneType t then Ret PNone else get_base_type t)
  /\ (forall values : list pyobj,
      get_base_type (PAlias o_list [Optional (PAlias o_Literal values)])
      = get_base_type (PAlias o_Literal values))
  /\ (forall (v : pyobj) (values : list pyobj),
         get_base_type (PAlias o_list [Optional (PAlias o_Literal (v :: values))])
         = Ret (PClass (type_of v))
         /\ get_base_type (PAlias o_Literal (v :: values)) = Ret (PClass (type_of v)))
  /\ (forall (inner : pyobj) (rest : list pyobj),
         get_base_type (PAlias o_list (inner :: rest)) = get_base_type inner)
  /\ (forall c : pyclass, get_base_type (PClass c) = Ret (PClass c)).
Proof.
  assert (Hwrap : forall values,
             get_base_type (PAlias o_list [Optional (PAlias o_Literal values)])
             = get_base_type (PAlias o_Literal values)).
  { intros values. simp get_base_type.
    rewrite get_base_type_Optional by reflexivity. now simp get_base_type. }
  split.
  { intros t. simp get_base_type. unfold Optional.
    rewrite get_base_type_Union. simpl. now destruct (is_NoneType t). }
  split; [exact Hwrap|]. split; [|split].
  - intros v values. rewrite Hwrap. split; now simp get_base_type.
  - intros inner rest. now simp get_base_type.
  - intros c. now simp get_base_type.
Qed.




(** ** Properties of the boolean coercer *)

Lemma true_values_In (s : string) :
  s ∈ true_values <-> In s ["1"; "on"; "t"; "true"; "y"; "yes"].
Proof.
  unfold true_values. rewrite !elem_of_union, !elem_of_singleton. simpl.
  intuition congruence.
Qed.

Lemma false_values_In (s : string) :
  s ∈ false_values <-> In s ["0"; "off"; "f"; "false"; "n"; "no"].
Proof.
  unfold false_values. rewrite !elem_of_union, !elem_of_singleton. simpl.
  intuition congruence.
Qed.

Lemma true_false_disjoint (s : string) :
  s ∈ true_values -> s ∈ false_values -> False.
Proof.
  rewrite true_values_In, false_values_In. simpl.
  intros Ht Hf.
  repeat (destruct Ht as [<-|Ht]; [intuition discriminate|]).
  exact Ht.
Qed.

Section Coercer.

Variable bytes_decode : list Byte.byte -> result string.
Variables str_lower str_strip : string -> string.
Variable str_of_obj : pyobj -> string.

Let parse := parse_bool_arg bytes_decode str_lower str_strip str_of_obj.

Lemma parse_bool_arg_str (s : string) :
  parse (PStr s) =
  if decide (str_strip (str_lower s) ∈ true_values) then Ret true
  else if decide (str_strip (str_lower s) ∈ false_values) then Ret false
  else Raise (ValueError ("Invalid boolean argument: " ++ s)).
Proof. reflexivity. Qed.

Lemma parse_bool_arg_true (s : string) :
  parse (PStr s) = Ret true <-> str_strip (str_lower s) ∈ true_values.
Proof.
  rewrite parse_bool_arg_str.
  repeat case_decide; split; intros; try done.
Qed.

Lemma parse_bool_arg_false (s : string) :
  parse (PStr s) = Ret false <-> str_strip (str_lower s) ∈ false_values.
Proof.
  rewrite parse_bool_arg_str.
  repeat case_decide; split; intros; try done.
  exfalso; eauto using true_false_disjoint.
Qed.

Lemma parse_bool_arg_invalid (s : string) :
  parse (PStr s) = Raise (ValueError ("Invalid boolean argument: " ++ s))
  <-> (str_strip (str_lower s) ∉ true_values)
      /\ (str_strip (str_lower s) ∉ false_values).
Proof.
  rewrite parse_bool_arg_str.
  repeat case_decide; split; intros; try done; tauto.
Qed.

Lemma parse_bool_arg_bytes (b : list Byte.byte) :
  parse (PBytes b) = (s ← bytes_decode b; parse (PStr s)).
Proof.
  unfold parse, parse_bool_arg. simpl.
  destruct (bytes_decode b); reflexivity.
Qed.

End Coercer.

(** C3. On a text [s], the coercer answers [True] exactly when
    [s.lower().strip()] is one of the six true words, [False] exactly
    when it is one of the six false words, and raises the [ValueError]
    that quotes [s] exactly when it is neither; bytes are decoded first
    and then treated as that text. *)
Theorem parse_bool_arg_vocabulary :
  (forall (bytes_decode : list Byte.byte -> result string)
          (str_lower str_strip : string -> string)
          (str_of_obj : pyobj -> string),
      let parse := parse_bool_arg bytes_decode str_lower str_strip str_of_obj in
      (forall s : string,
          let arg_str := str_strip (str_lower s) in
          (parse (PStr s) = Ret true
           <-> In arg_str ["1"; "on"; "t"; "true"; "y"; "yes"])
          /\ (parse (PStr s) = Ret false
              <-> In arg_str ["0"; "off"; "f"; "false"; "n"; "no"])
          /\ (parse (PStr s) = Raise (ValueError ("Invalid boolean argument: " ++ s))
              <-> ~ In arg_str ["1"; "on"; "t"; "true"; "y"; "yes"]
                  /\ ~ In arg_str ["0"; "off"; "f"; "false"; "n"; "no"]))
      /\ (forall b : list Byte.byte,
             parse (PBytes b) = (s ← bytes_decode b; parse (PStr s))))
  /\ (forall (bytes_decode : list Byte.byte -> result string)
             (str_of_obj : pyobj -> string),
         let parse :=
           parse_bool_arg bytes_decode Latin1.lower Latin1.strip str_of_obj in
         parse (PStr "  TRUE ") = Ret true
         /\ parse (PStr "No") = Ret false
         /\ parse (PStr "maybe")
            = Raise (ValueError "Invalid boolean argument: maybe")).
Proof.
  split.
  - intros bytes_decode str_lower str_strip str_of_obj parse. split.
    + intros s arg_str. subst parse arg_str.
      rewrite <- true_values_In, <- false_values_In.
      split; [apply parse_bool_arg_true|].
      split; [apply parse_bool_arg_false | apply parse_bool_arg_invalid].
    + apply parse_bool_arg_bytes.
  - intros bytes_decode str_of_obj parse. subst parse.
    repeat split; vm_compute; reflexivity.
Qed.

(** ** Properties of the two compilers *)

Section Compilers.

Variable str_of_obj : pyobj -> string.
Variable py_repr : pyobj -> string.

Lemma compile_field_raises (name : string) (field : FieldInfo) (e : exc) :
  field_base_type field = Raise e ->
  compile_field str_of_obj name field = Raise e.
Proof. intros Hb. unfold compile_field, register_field. now rewrite Hb. Qed.

Lemma compile_field_bool (name : string) (field : FieldInfo) (base_type : pyobj) :
  field_base_type field = Ret base_type ->
  is_bool base_type = true ->
  exists spec,
    compile_field str_of_obj name field = Ret [spec]
    /\ a_flag spec = "--" ++ name
    /\ a_type spec = call_parse_bool_arg
    /\ one_token spec.
Proof.
  intros Hb Hbool. unfold compile_field, register_field. rewrite Hb. simpl.
  rewrite Hbool. simpl. eexists. split; [reflexivity|]. now repeat split.
Qed.

Lemma compile_field_other (name : string) (field : FieldInfo) (base_type : pyobj) :
  field_base_type field = Ret base_type ->
  is_bool base_type = false ->
  exists spec,
    compile_field str_of_obj name field = Ret [spec]
    /\ a_flag spec = "--" ++ name
    /\ a_type spec = call_obj base_type
    /\ a_nargs spec
       = if contains_list_type (annotation field) then Some "*" else None.
Proof.
  intros Hb Hbool. unfold compile_field, register_field. rewrite Hb. simpl.
  rewrite Hbool. simpl. eexists. split; [reflexivity|]. now repeat split.
Qed.

Lemma compile_uvicorn_cons (param_name : string) (param : Param)
    (params : list (string * Param)) :
  compile_uvicorn py_repr ((param_name, param) :: params)
  = app (compile_param py_repr param_name param) (compile_uvicorn py_repr params).
Proof. reflexivity. Qed.

Lemma scalar_then_list_base n c between list_args after :
  is_NoneType (PClass c) = false ->
  get_base_type (scalar_then_list n c between list_args after) = Ret (PClass c).
Proof.
  intros Hc. unfold scalar_then_list. rewrite get_base_type_Union.
  rewrite List.filter_app, filter_repeat_NoneType.
  cbn [app List.filter]. rewrite Hc. cbn [negb].
  now simp get_base_type.
Qed.

Lemma scalar_then_list_contains n c between list_args after :
  contains_list_type (scalar_then_list n c between list_args after) = true.
Proof.
  simpl. apply existsb_exists. exists (PAlias o_list list_args).
  split; [|reflexivity].
  apply in_or_app. right. right. apply in_or_app. right. now left.
Qed.

End Compilers.

(** C5. A field whose base type resolves to [bool] is registered with
    [parse_bool_arg] and reads one token, list or not; any other field is
    registered with its base type, and reads any number of tokens exactly
    when [contains_list_type] holds of its annotation, one token
    otherwise. *)
Theorem compile_field_arity :
  (forall (str_of_obj : pyobj -> string) (name : string) (field : FieldInfo)
          (base_type : pyobj),
      field_base_type field = Ret base_type ->
      exists spec,
        compile_field str_of_obj name field = Ret [spec]
        /\ (is_bool base_type = true ->
            a_type spec = call_parse_bool_arg /\ one_token spec)
        /\ (is_bool base_type = false ->
            a_type spec = call_obj base_type
            /\ (any_number_of_tokens spec
                <-> contains_list_type (annotation field) = true)
            /\ (one_token spec
                <-> contains_list_type (annotation field) = false)))
  /\ (forall (str_of_obj : pyobj -> string),
         compile_field str_of_obj "flags"
           {| annotation := PAlias o_list [PClass c_bool];
              default := PNone; description := None |}
         = Ret [ {| a_flag := "--flags"; a_dest := Some "flags";
                    a_nargs := None; a_type := call_parse_bool_arg;
                    a_default := PNone; a_help := Some "None" |} ]
         /\ compile_field str_of_obj "tags"
              {| annotation := PAlias o_list [PClass c_str];
                 default := PNone; description := Some "Tags" |}
            = Ret [ {| a_flag := "--tags"; a_dest := Some "tags";
                       a_nargs := Some "*"; a_type := call_obj (PClass c_str);
                       a_default := PNone; a_help := Some "Tags" |} ]
         /\ compile_field str_of_obj "n_ctx"
              {| annotation := PClass c_int;
                 default := PNone; description := Some "Context" |}
            = Ret [ {| a_flag := "--n_ctx"; a_dest := Some "n_ctx";
                       a_nargs := None; a_type := call_obj (PClass c_int);
                       a_default := PNone; a_help := Some "Context" |} ]).
Proof.
  split.
  - intros str_of_obj name field base_type Hb.
    destruct (is_bool base_type) eqn:Hbool.
    + destruct (compile_field_bool str_of_obj name field base_type Hb Hbool)
        as (spec & Hc & _ & Ht & Hn).
      exists spec. split; [exact Hc|]. split; [now intros _ | discriminate].
    + destruct (compile_field_other str_of_obj name field base_type Hb Hbool)
        as (spec & Hc & _ & Ht & Hn).
      exists spec. split; [exact Hc|]. split; [discriminate|]. intros _.
      split; [exact Ht|]. unfold any_number_of_tokens, one_token. rewrite Hn.
      destruct (contains_list_type (annotation field)); split; split;
        intros; congruence.
  - intros str_of_obj. repeat split.
Qed.

(** C9. Every parameter of [uvicorn.run] but [app] gets one flag,
    [--uvicorn-] followed by its name; its annotation is passed as it is
    ([str] when it has none) and its default likewise ([None] when it has
    none). *)
Theorem compile_uvicorn_flags :
  (forall (py_repr : pyobj -> string) (params : list (string * Param)),
      Forall2
        (fun (np : string * Param) (spec : add_argument) =>
           a_flag spec = "--" ++ ("uvicorn-" ++ fst np)
           /\ a_type spec = call_obj (match p_annotation (snd np) with
                                      | Some t => t
                                      | None => PClass c_str
                                      end)
           /\ a_default spec = match p_default (snd np) with
                               | Some d => d
                               | None => PNone
                               end)
        (List.filter (fun np => negb (String.eqb (fst np) "app")) params)
        (compile_uvicorn py_repr params))
  /\ (forall (py_repr : pyobj -> string),
         List.map (fun spec => (a_flag spec, a_type spec, a_default spec))
           (compile_uvicorn py_repr
              [ ("app", {| p_annotation := None; p_default := None |});
                ("host", {| p_annotation := Some (PClass c_str);
                            p_default := Some (PStr "127.0.0.1") |});
                ("uds", {| p_annotation := Some (Optional (PClass c_str));
                           p_default := Some PNone |});
                ("extra", {| p_annotation := None; p_default := None |}) ])
         = [ ("--uvicorn-host", call_obj (PClass c_str), PStr "127.0.0.1");
             ("--uvicorn-uds", call_obj (Optional (PClass c_str)), PNone);
             ("--uvicorn-extra", call_obj (PClass c_str), PNone) ]).
Proof.
  split; [|reflexivity].
  intros py_repr params. induction params as [|[param_name param] params IH].
  - constructor.
  - rewrite compile_uvicorn_cons. unfold compile_param. simpl.
    destruct (String.eqb param_name "app"); simpl; [exact IH|].
    constructor; [now repeat split | exact IH].
Qed.

(** C10, as the script behaves: for [Union[bool, List[str]]] the base type
    is [bool] and the annotation contains a list, yet the one flag that
    is registered reads one token. *)
Lemma bool_then_list_one_token :
  get_base_type (PAlias o_Union [PClass c_bool; PAlias o_list [PClass c_str]])
  = Ret (PClass c_bool)
  /\ contains_list_type
       (PAlias o_Union [PClass c_bool; PAlias o_list [PClass c_str]]) = true
  /\ register_field "x"
       {| annotation := PAlias o_Union [PClass c_bool; PAlias o_list [PClass c_str]];
          default := PNone; description := None |} None
     = Ret [ {| a_flag := "--x"; a_dest := Some "x";
                a_nargs := None; a_type := call_parse_bool_arg;
                a_default := PNone; a_help := Some "None" |} ].
Proof. repeat split. Qed.

(** C10, amended. When the first argument of a union that is not
    [NoneType] is a class other than [bool], and a later argument is a
    list alias, the base type is that class, the annotation contains a
    list, and the one flag registered converts with that class and reads
    any number of tokens. *)
Theorem scalar_then_list_any_number
    (n : nat) (c : pyclass) (between list_args after : list pyobj)
    (name : string) (dflt : pyobj) (descr : option string) :
  is_NoneType (PClass c) = false ->
  is_bool (PClass c) = false ->
  let ann := scalar_then_list n c between list_args after in
  let field := {| annotation := ann; default := dflt; description := descr |} in
  get_base_type ann = Ret (PClass c)
  /\ contains_list_type ann = true
  /\ forall str_of_obj : pyobj -> string,
      exists spec,
        compile_field str_of_obj name field = Ret [spec]
        /\ a_type spec = call_obj (PClass c)
        /\ any_number_of_tokens spec.
Proof.
  intros HNone Hbool ann field.
  pose proof (scalar_then_list_base n c between list_args after HNone) as Hbase.
  pose proof (scalar_then_list_contains n c between list_args after) as Hlist.
  split; [exact Hbase|]. split; [exact Hlist|].
  intros str_of_obj.
  destruct (compile_field_other str_of_obj name field (PClass c))
    as (spec & Hc & _ & Ht & Hn); [|exact Hbool|].
  - unfold field_base_type, field. cbn [annotation]. exact Hbase.
  - exists spec. split; [exact Hc|]. split; [exact Ht|].
    unfold any_number_of_tokens. rewrite Hn. subst field ann.
    cbn [annotation]. now rewrite Hlist.
Qed.

Lemma scalar_then_list_any_number_witness :
  is_NoneType (PClass c_int) = false
  /\ is_bool (PClass c_int) = false
  /\ get_base_type (PAlias o_Union [PClass c_int; PAlias o_list [PClass c_str]])
     = Ret (PClass c_int)
  /\ contains_list_type
       (PAlias o_Union [PClass c_int; PAlias o_list [PClass c_str]]) = true
  /\ forall str_of_obj : pyobj -> string,
      exists spec,
        compile_field str_of_obj "x"
          {| annotation := PAlias o_Union [PClass c_int; PAlias o_list [PClass c_str]];
             default := PNone; description := None |} = Ret [spec]
        /\ a_type spec = call_obj (PClass c_int)
        /\ any_number_of_tokens spec.
Proof.
  split; [reflexivity|]. split; [reflexivity|].
  apply (scalar_then_list_any_number 0 c_int [] [PClass c_str] [] "x" PNone None);
    reflexivity.
Defined.

(** ** Properties of the partition *)

Lemma startswith_split (p k : string) :
  startswith k p = true -> k = p ++ slice_from (String.length p) k.
Proof.
  unfold startswith. revert k.
  induction p as [|a p IH]; intros k Hp; [reflexivity|].
  destruct k as [|b k]; simpl in Hp; [discriminate|].
  destruct (Ascii.ascii_dec a b) as [->|]; [|discriminate].
  change (String b k = String b (p ++ slice_from (String.length p) k)).
  f_equal. now apply IH.
Qed.

Lemma startswith_app (p r : string) : startswith (p ++ r) p = true.
Proof.
  unfold startswith. induction p as [|a p IH].
  - now destruct r.
  - change (String.prefix (String a p) (String a (p ++ r)) = true). simpl.
    destruct (Ascii.ascii_dec a a); [exact IH | congruence].
Qed.

Lemma slice_from_app (p r : string) : slice_from (String.length p) (p ++ r) = r.
Proof. induction p as [|a p IH]; [reflexivity | exact IH]. Qed.

Lemma is_None_false (v : pyobj) : is_None v = false <-> v <> PNone.
Proof. destruct v; simpl; split; intros; congruence. Qed.

Section DictComprehension.

Variable key : string -> string.
Variable cond : string -> pyobj -> bool.

Let step (acc : gmap string pyobj) (kv : string * pyobj) : gmap string pyobj :=
  let '(k, v) := kv in if cond k v then <[key k := v]> acc else acc.

Lemma foldl_step_lookup (l : list (string * pyobj)) :
  NoDup l.*1 ->
  (forall k1 v1 k2 v2,
      (k1, v1) ∈ l -> (k2, v2) ∈ l ->
      cond k1 v1 = true -> cond k2 v2 = true -> key k1 = key k2 -> k1 = k2) ->
  forall (acc : gmap string pyobj) (k' : string) (v : pyobj),
    foldl step acc l !! k' = Some v <->
    (exists k, (k, v) ∈ l /\ cond k v = true /\ key k = k')
    \/ (acc !! k' = Some v
        /\ forall k v0, (k, v0) ∈ l -> cond k v0 = true -> key k <> k').
Proof.
  induction l as [|[k0 v0] l IH]; intros Hnd Hinj acc k' v.
  - simpl. split.
    + intros Hacc. right. split; [exact Hacc|]. intros k w Hin.
      now apply elem_of_nil in Hin.
    + intros [(k & Hin & _)|[Hacc _]]; [now apply elem_of_nil in Hin | exact Hacc].
  - rewrite fmap_cons in Hnd. apply NoDup_cons in Hnd as [Hk0 Hnd].
    assert (Hinj' : forall k1 v1 k2 v2,
               (k1, v1) ∈ l -> (k2, v2) ∈ l ->
               cond k1 v1 = true -> cond k2 v2 = true -> key k1 = key k2 -> k1 = k2).
    { intros k1 v1 k2 v2 H1 H2. apply Hinj; (apply elem_of_cons; now right). }
    assert (Hfresh : forall w, (k0, w) ∈ l -> False).
    { intros w Hin. apply Hk0. apply list_elem_of_fmap. now exists (k0, w). }
    simpl. rewrite (IH Hnd Hinj').
    destruct (cond k0 v0) eqn:Hc.
    + split.
      * intros [(k & Hin & Hck & Hk)|[Hacc Hno]].
        -- left. exists k. split; [(apply elem_of_cons; now right) | easy].
        -- destruct (decide (key k0 = k')) as [Heq|Hne].
           ++ rewrite <- Heq, lookup_insert_eq in Hacc. injection Hacc as <-.
              left. exists k0. split; [(apply elem_of_cons; now left) | easy].
           ++ rewrite lookup_insert_ne in Hacc by exact Hne.
              right. split; [exact Hacc|]. intros k w Hin Hck.
              apply elem_of_cons in Hin as [Heq|Hin]; [|now apply (Hno k w)].
              injection Heq as -> ->. exact Hne.
      * intros [(k & Hin & Hck & Hk)|[Hacc Hno]].
        -- apply elem_of_cons in Hin as [Heq|Hin].
           ++ injection Heq as -> ->. right. subst k'.
              split; [apply lookup_insert_eq|]. intros k w Hin Hcw Hkey.
              assert (k = k0) as ->.
              { apply (Hinj k w k0 v0); try easy.
                - (apply elem_of_cons; now right).
                - (apply elem_of_cons; now left). }
              exact (Hfresh w Hin).
           ++ left. now exists k.
        -- assert (Hne : key k0 <> k').
           { apply (Hno k0 v0); [(apply elem_of_cons; now left) | exact Hc]. }
           right. rewrite lookup_insert_ne by exact Hne.
           split; [exact Hacc|]. intros k w Hin. apply Hno.
           (apply elem_of_cons; now right).
    + split.
      * intros [(k & Hin & Hck & Hk)|[Hacc Hno]].
        -- left. exists k. split; [(apply elem_of_cons; now right) | easy].
        -- right. split; [exact Hacc|]. intros k w Hin Hck.
           apply elem_of_cons in Hin as [Heq|Hin]; [|now apply (Hno k w)].
           injection Heq as -> ->. congruence.
      * intros [(k & Hin & Hck & Hk)|[Hacc Hno]].
        -- apply elem_of_cons in Hin as [Heq|Hin].
           ++ injection Heq as -> ->. congruence.
           ++ left. now exists k.
        -- right. split; [exact Hacc|]. intros k w Hin. apply Hno.
           (apply elem_of_cons; now right).
Qed.

(** The entries of a comprehension whose keys do not collide. *)
Lemma dict_comprehension_lookup (d : gmap string pyobj) :
  (forall k1 v1 k2 v2,
      d !! k1 = Some v1 -> d !! k2 = Some v2 ->
      cond k1 v1 = true -> cond k2 v2 = true -> key k1 = key k2 -> k1 = k2) ->
  forall (k' : string) (v : pyobj),
    dict_comprehension key cond d !! k' = Some v <->
    exists k, d !! k = Some v /\ cond k v = true /\ key k = k'.
Proof.
  intros Hinj k' v. unfold dict_comprehension.
  change (foldl step ∅ (map_to_list d) !! k' = Some v <->
          exists k, d !! k = Some v /\ cond k v = true /\ key k = k').
  rewrite foldl_step_lookup.
  - split.
    + intros [(k & Hin & Hc)|[Hacc _]].
      * exists k. now rewrite <- elem_of_map_to_list.
      * now rewrite lookup_empty in Hacc.
    + intros (k & Hin & Hc). left. exists k. now rewrite elem_of_map_to_list.
  - apply NoDup_fst_map_to_list.
  - intros k1 v1 k2 v2 H1 H2. apply Hinj; now apply elem_of_map_to_list.
Qed.

End DictComprehension.

Lemma settings_kwargs_lookup (vars_args : gmap string pyobj) (k : string) (v : pyobj) :
  settings_kwargs vars_args !! k = Some v <->
  vars_args !! k = Some v /\ v <> PNone /\ startswith k "uvicorn_" = false.
Proof.
  unfold settings_kwargs. rewrite dict_comprehension_lookup; [|auto].
  split.
  - intros (k1 & Hk & Hc & <-). apply andb_prop in Hc as [Hv Hp].
    apply negb_true_iff in Hv, Hp. now rewrite is_None_false in Hv.
  - intros (Hk & Hv & Hp). exists k. split; [exact Hk|]. split; [|reflexivity].
    apply is_None_false in Hv. now rewrite Hv, Hp.
Qed.

Lemma uvicorn_args_lookup (vars_args : gmap string pyobj) (k : string) (v : pyobj) :
  uvicorn_args vars_args !! k = Some v <->
  vars_args !! ("uvicorn_" ++ k) = Some v /\ v <> PNone.
Proof.
  unfold uvicorn_args. rewrite dict_comprehension_lookup.
  - split.
    + intros (k1 & Hk & Hc & <-). apply andb_prop in Hc as [Hp Hv].
      apply negb_true_iff in Hv. rewrite is_None_false in Hv.
      apply startswith_split in Hp. change (String.length "uvicorn_") with 8 in Hp.
      now rewrite <- Hp.
    + intros (Hk & Hv). exists ("uvicorn_" ++ k). split; [exact Hk|].
      split; [|exact (slice_from_app "uvicorn_" k)].
      apply is_None_false in Hv. now rewrite startswith_app, Hv.
  - intros k1 v1 k2 v2 _ _ H1 H2 Hkey.
    apply andb_prop in H1 as [H1 _]. apply andb_prop in H2 as [H2 _].
    apply startswith_split in H1, H2.
    change (String.length "uvicorn_") with 8 in H1, H2. congruence.
Qed.

(** C6. The settings are exactly the entries whose value is not [None]
    and whose key does not start with [uvicorn_]; the launch values are
    exactly the entries whose value is not [None] and whose key starts
    with [uvicorn_] - the key under which [argparse] stores a flag that
    starts with [--uvicorn-] - stored under the rest of the key. *)
Theorem partition_vars_args :
  (forall (vars_args : gmap string pyobj) (k : string) (v : pyobj),
      (settings_kwargs vars_args !! k = Some v <->
       vars_args !! k = Some v /\ v <> PNone /\ startswith k "uvicorn_" = false)
      /\ (uvicorn_args vars_args !! k = Some v <->
          vars_args !! ("uvicorn_" ++ k) = Some v /\ v <> PNone))
  /\ (forall (vars_args : gmap string pyobj) (k : string),
         vars_args !! k = Some PNone ->
         settings_kwargs vars_args !! k = None
         /\ (startswith k "uvicorn_" = true ->
             uvicorn_args vars_args !! slice_from 8 k = None))
  /\ (forall (vars_args : gmap string pyobj) (k : string) (v : pyobj),
         vars_args !! k = Some v -> v <> PNone ->
         if startswith k "uvicorn_"
         then uvicorn_args vars_args !! slice_from 8 k = Some v
              /\ settings_kwargs vars_args !! k = None
         else settings_kwargs vars_args !! k = Some v)
  /\ settings_kwargs example_namespace = {[ "model" := PStr "/path" ]}
  /\ uvicorn_args example_namespace = {[ "reload" := PStr "true" ]}
  /\ argparse_dest "--uvicorn-reload" = "uvicorn_reload".
Proof.
  split; [|split; [|split; [|split; [|split]]]].
  - intros vars_args k v.
    split; [apply settings_kwargs_lookup | apply uvicorn_args_lookup].
  - intros vars_args k Hk. split.
    + destruct (settings_kwargs vars_args !! k) as [w|] eqn:Hw; [|reflexivity].
      apply settings_kwargs_lookup in Hw as (Hw & Hne & _). congruence.
    + intros Hp.
      destruct (uvicorn_args vars_args !! slice_from 8 k) as [w|] eqn:Hw;
        [|reflexivity].
      apply uvicorn_args_lookup in Hw as (Hw & Hne).
      apply startswith_split in Hp. change (String.length "uvicorn_") with 8 in Hp.
      rewrite <- Hp in Hw. congruence.
  - intros vars_args k v Hk Hv.
    destruct (startswith k "uvicorn_") eqn:Hp.
    + split.
      * apply uvicorn_args_lookup. split; [|exact Hv].
        apply startswith_split in Hp.
        change (String.length "uvicorn_") with 8 in Hp. now rewrite <- Hp.
      * destruct (settings_kwargs vars_args !! k) as [w|] eqn:Hw; [|reflexivity].
        apply settings_kwargs_lookup in Hw as (_ & _ & Hw). congruence.
    + now apply settings_kwargs_lookup.
  - vm_compute. reflexivity.
  - vm_compute. reflexivity.
  - reflexivity.
Qed.

(** ** Properties of the host and port resolution *)

Lemma os_getenv_set (environ : gmap string string) (key value : string)
    (default : pyobj) :
  os_getenv (<[key := value]> environ) key default = PStr value.
Proof. unfold os_getenv. now rewrite lookup_insert_eq. Qed.

Lemma os_getenv_unset (environ : gmap string string) (key : string)
    (default : pyobj) :
  os_getenv (delete key environ) key default = default.
Proof. unfold os_getenv. now rewrite lookup_delete_eq. Qed.

Lemma dict_get_set (d : gmap string pyobj) (key : string) (v default : pyobj) :
  dict_get (<[key := v]> d) key default = v.
Proof. unfold dict_get. now rewrite lookup_insert_eq. Qed.

Lemma dict_get_unset (d : gmap string pyobj) (key : string) (default : pyobj) :
  dict_get (delete key d) key default = default.
Proof. unfold dict_get. now rewrite lookup_delete_eq. Qed.

Section Launch.

Variable py_repr : pyobj -> string.
Variable int_of_str : string -> option Z.
Variable int_of_bytes : list Byte.byte -> option Z.

Let port := launch_port py_repr int_of_str int_of_bytes.
Let int := py_int py_repr int_of_str int_of_bytes.

Lemma py_int_is_int (x : pyobj) :
  match int x with
  | Ret p => exists z, p = PInt z
  | Raise _ => True
  end.
Proof.
  unfold int, py_int. destruct x; simpl; trivial; try (now eexists).
  - destruct (int_of_str s); simpl; [now eexists | trivial].
  - destruct (int_of_bytes b); simpl; [now eexists | trivial].
Qed.

Lemma launch_port_env (environ : gmap string string) (ua : gmap string pyobj)
    (p : string) :
  port (<["PORT" := p]> environ) ua = int (PStr p).
Proof. unfold port, launch_port. now rewrite os_getenv_set. Qed.

Lemma launch_port_cli (environ : gmap string string) (ua : gmap string pyobj)
    (v : pyobj) :
  port (delete "PORT" environ) (<["port" := v]> ua) = int v.
Proof. unfold port, launch_port. now rewrite os_getenv_unset, dict_get_set. Qed.

Lemma launch_port_default (environ : gmap string string) (ua : gmap string pyobj) :
  port (delete "PORT" environ) (delete "port" ua) = Ret (PInt 8000).
Proof. unfold port, launch_port. now rewrite os_getenv_unset, dict_get_unset. Qed.

Lemma merge_environment_unfold (environ : gmap string string)
    (ua : gmap string pyobj) :
  merge_environment py_repr int_of_str int_of_bytes environ ua
  = (p ← port environ ua;
     Ret (<["port" := p]> (<["host" := launch_host environ ua]> ua))).
Proof.
  unfold merge_environment, port, launch_port, dict_get.
  now rewrite lookup_insert_ne by discriminate.
Qed.

End Launch.

(** C7. The host is [HOST] when the environment has it, else the value
    under [host] in [uvicorn_args] when there is one, else ["127.0.0.1"];
    the port is [int] of [PORT], else [int] of the value under [port],
    else [8000], and whenever it is computed it is an [int]. *)
Theorem launch_host_port_precedence :
  (forall (environ : gmap string string) (ua : gmap string pyobj),
      (forall h : string, launch_host (<["HOST" := h]> environ) ua = PStr h)
      /\ (forall v : pyobj,
             launch_host (delete "HOST" environ) (<["host" := v]> ua) = v)
      /\ launch_host (delete "HOST" environ) (delete "host" ua)
         = PStr "127.0.0.1")
  /\ (forall (py_repr : pyobj -> string) (int_of_str : string -> option Z)
             (int_of_bytes : list Byte.byte -> option Z)
             (environ : gmap string string) (ua : gmap string pyobj),
         let port := launch_port py_repr int_of_str int_of_bytes in
         let int := py_int py_repr int_of_str int_of_bytes in
         (forall p : string, port (<["PORT" := p]> environ) ua = int (PStr p))
         /\ (forall v : pyobj,
                port (delete "PORT" environ) (<["port" := v]> ua) = int v)
         /\ port (delete "PORT" environ) (delete "port" ua) = Ret (PInt 8000)
         /\ match port environ ua with
            | Ret p => exists z : Z, p = PInt z
            | Raise _ => True
            end
         /\ merge_environment py_repr int_of_str int_of_bytes environ ua
            = (p ← port environ ua;
               Ret (<["port" := p]> (<["host" := launch_host environ ua]> ua))))
  /\ (forall (py_repr : pyobj -> string)
             (int_of_bytes : list Byte.byte -> option Z)
             (environ : gmap string string) (ua : gmap string pyobj),
         launch_port py_repr Latin1.int_of_str int_of_bytes
           (<["PORT" := "9090"]> environ) (delete "port" ua)
         = Ret (PInt 9090)
         /\ exists launch : gmap string pyobj,
             merge_environment py_repr Latin1.int_of_str int_of_bytes
               (<["PORT" := "9090"]> environ) (delete "port" ua) = Ret launch
             /\ launch !! "port" = Some (PInt 9090)).
Proof.
  split; [|split].
  - intros environ ua. unfold launch_host. split; [|split].
    + intros h. apply os_getenv_set.
    + intros v. now rewrite os_getenv_unset, dict_get_set.
    + now rewrite os_getenv_unset, dict_get_unset.
  - intros py_repr int_of_str int_of_bytes environ ua port int.
    split; [apply launch_port_env|].
    split; [apply launch_port_cli|].
    split; [apply launch_port_default|].
    split; [apply py_int_is_int | apply merge_environment_unfold].
  - intros py_repr int_of_bytes environ ua.
    assert (Hport : launch_port py_repr Latin1.int_of_str int_of_bytes
                      (<["PORT" := "9090"]> environ) (delete "port" ua)
                    = Ret (PInt 9090)) by now rewrite launch_port_env.
    split; [exact Hport|].
    rewrite merge_environment_unfold, Hport. eexists.
    split; [reflexivity | apply lookup_insert_eq].
Qed.

(** C8, as the script behaves: with [HOST] in the environment and a host
    on the command line, the environment's one is used. *)
Lemma environment_beats_command_line :
  launch_host {[ "HOST" := "0.0.0.0" ]} {[ "host" := PStr "192.168.1.5" ]}
  = PStr "0.0.0.0"
  /\ launch_host {[ "HOST" := "0.0.0.0" ]} {[ "host" := PStr "192.168.1.5" ]}
     <> PStr "192.168.1.5".
Proof.
  assert (H : launch_host {[ "HOST" := "0.0.0.0" ]} {[ "host" := PStr "192.168.1.5" ]}
              = PStr "0.0.0.0") by (vm_compute; reflexivity).
  split; [exact H|]. rewrite H. discriminate.
Qed.

(** C8, amended. The sources are tried in the order environment variable,
    command line value, default: with both an environment variable and a
    command line value, the environment variable is used, and the command
    line value is used only without one. *)
Theorem environment_first :
  (forall (environ : gmap string string) (ua : gmap string pyobj)
          (h : string) (v : pyobj),
      launch_host (<["HOST" := h]> environ) (<["host" := v]> ua) = PStr h
      /\ launch_host (delete "HOST" environ) (<["host" := v]> ua) = v)
  /\ (forall (py_repr : pyobj -> string) (int_of_str : string -> option Z)
             (int_of_bytes : list Byte.byte -> option Z)
             (environ : gmap string string) (ua : gmap string pyobj)
             (p : string) (v : pyobj),
         launch_port py_repr int_of_str int_of_bytes
           (<["PORT" := p]> environ) (<["port" := v]> ua)
         = py_int py_repr int_of_str int_of_bytes (PStr p)
         /\ launch_port py_repr int_of_str int_of_bytes
              (delete "PORT" environ) (<["port" := v]> ua)
            = py_int py_repr int_of_str int_of_bytes v).
Proof.
  split.
  - intros environ ua h v. unfold launch_host. split.
    + apply os_getenv_set.
    + now rewrite os_getenv_unset, dict_get_set.
  - intros py_repr int_of_str int_of_bytes environ ua p v.
    split; [apply launch_port_env | apply launch_port_cli].
Qed.

(** ** Further properties of the type resolver *)

Lemma is_wrapper_false_fixed (t : pyobj) :
  is_wrapper t = false ->
  get_base_type t = Ret t /\ contains_list_type t = false.
Proof.
  destruct t as [| | | | | |c|o args|g]; intros Hw;
    try (split; [now simp get_base_type | reflexivity]).
  - destruct o; try discriminate.
    split; [now simp get_base_type | reflexivity].
  - destruct g; try discriminate.
    split; [now simp get_base_type | reflexivity].
Qed.

Lemma get_base_type_unwrapped_aux (n : nat) :
  forall x t, pysize x <= n -> get_base_type x = Ret t -> is_wrapper t = false.
Proof.
  induction n as [|n IH]; intros x t Hsz Hx.
  - destruct x; simpl in Hsz; lia.
  - destruct x as [| | | | | |c|o args|g];
      try (simp get_base_type in Hx; injection Hx as <-; reflexivity).
    + destruct o.
      * destruct args as [|a0 r]; simp get_base_type in Hx; simpl in Hx;
          [discriminate | injection Hx as <-; reflexivity].
      * rewrite get_base_type_Union in Hx.
        destruct (List.filter _ args) as [|a0 r] eqn:Hf;
          [injection Hx as <-; reflexivity|].
        pose proof (filter_head_In _ _ _ _ Hf) as Hin.
        apply (IH a0); [|exact Hx].
        apply pysize_In in Hin. simpl in Hsz. lia.
      * destruct args as [|a0 r]; simp get_base_type in Hx; [discriminate|].
        apply (IH a0); [simpl in Hsz; lia | exact Hx].
      * simp get_base_type in Hx. injection Hx as <-. reflexivity.
    + destruct g; simp get_base_type in Hx; [discriminate|].
      injection Hx as <-. reflexivity.
Qed.

(** X1. What [get_base_type] returns is never a [Literal], [Union] or
    [list] alias: resolving it again gives it back, and it contains no
    list. *)
Theorem get_base_type_unwrapped (x t : pyobj) :
  get_base_type x = Ret t ->
  is_wrapper t = false
  /\ get_base_type t = Ret t
  /\ contains_list_type t = false.
Proof.
  intros Hx.
  assert (Hw : is_wrapper t = false)
    by (apply (get_base_type_unwrapped_aux (pysize x) x); [lia | exact Hx]).
  split; [exact Hw | now apply is_wrapper_false_fixed].
Qed.

Lemma get_base_type_unwrapped_witness :
  get_base_type
    (PAlias o_list [Optional (PAlias o_Union [PClass c_int; PAlias o_list [PClass c_str]])])
  = Ret (PClass c_int)
  /\ is_wrapper (PClass c_int) = false
  /\ get_base_type (PClass c_int) = Ret (PClass c_int)
  /\ contains_list_type (PClass c_int) = false.
Proof.
  split; [reflexivity|].
  apply (get_base_type_unwrapped
           (PAlias o_list
              [Optional (PAlias o_Union [PClass c_int; PAlias o_list [PClass c_str]])])).
  reflexivity.
Defined.

Lemma get_base_type_raises_aux (n : nat) :
  forall x e, pysize x <= n -> get_base_type x = Raise e ->
              (e = IndexError \/ e = AttributeError) /\ is_wrapper x = true.
Proof.
  induction n as [|n IH]; intros x e Hsz Hx.
  - destruct x; simpl in Hsz; lia.
  - destruct x as [| | | | | |c|o args|g];
      try (simp get_base_type in Hx; discriminate).
    + destruct o.
      * destruct args as [|a0 r]; simp get_base_type in Hx; simpl in Hx;
          [injection Hx as <-; split; [now left | reflexivity] | discriminate].
      * split; [|reflexivity].
        rewrite get_base_type_Union in Hx.
        destruct (List.filter _ args) as [|a0 r] eqn:Hf; [discriminate|].
        pose proof (filter_head_In _ _ _ _ Hf) as Hin.
        apply (IH a0); [|exact Hx].
        apply pysize_In in Hin. simpl in Hsz. lia.
      * split; [|reflexivity].
        destruct args as [|a0 r]; simp get_base_type in Hx;
          [injection Hx as <-; now left|].
        apply (IH a0); [simpl in Hsz; lia | exact Hx].
      * simp get_base_type in Hx. discriminate.
    + destruct g; simp get_base_type in Hx; [|discriminate].
      injection Hx as <-. split; [now right | reflexivity].
Qed.

(** X2. When [get_base_type] raises, the exception is the [IndexError] of
    [__args__[0]] on an empty tuple or the [AttributeError] of [__args__]
    on the unsubscripted [List], and the annotation has the origin
    [Literal], [Union] or [list]: an object of another origin, or without
    one, never makes it fail. *)
Theorem get_base_type_exceptions (x : pyobj) (e : exc) :
  get_base_type x = Raise e ->
  (e = IndexError \/ e = AttributeError) /\ is_wrapper x = true.
Proof. apply (get_base_type_raises_aux (pysize x)). lia. Qed.

Lemma get_base_type_exceptions_witness :
  get_base_type (PAlias o_list [Optional (PGeneric g_List)]) = Raise AttributeError
  /\ (AttributeError = IndexError \/ AttributeError = AttributeError)
  /\ is_wrapper (PAlias o_list [Optional (PGeneric g_List)]) = true.
Proof.
  split; [reflexivity|].
  apply (get_base_type_exceptions
           (PAlias o_list [Optional (PGeneric g_List)]) AttributeError).
  reflexivity.
Defined.

(** X3. In a union, the leading [NoneType] arguments are skipped and the
    arguments after the first other one are never looked at: the union
    resolves to what that argument resolves to, whatever follows it. *)
Theorem get_base_type_Union_first (n : nat) (t : pyobj) (rest : list pyobj) :
  is_NoneType t = false ->
  get_base_type (PAlias o_Union (app (repeat (PClass c_NoneType) n) (t :: rest)))
  = get_base_type t.
Proof.
  intros Ht. rewrite get_base_type_Union, List.filter_app, filter_repeat_NoneType.
  cbn [app List.filter]. now rewrite Ht.
Qed.

Lemma get_base_type_Union_first_witness :
  is_NoneType (PClass c_float) = false
  /\ get_base_type
       (PAlias o_Union [PClass c_NoneType; PClass c_float; PAlias o_Literal []])
     = get_base_type (PClass c_float).
Proof.
  split; [reflexivity|].
  apply (get_base_type_Union_first 1 (PClass c_float) [PAlias o_Literal []]).
  reflexivity.
Defined.

Lemma contains_list_type_Optional (t : pyobj) :
  contains_list_type (Optional t) = contains_list_type t.
Proof. simpl. now rewrite !orb_false_r. Qed.

(** X4. Making a field optional does not change how it is registered:
    for an annotation [t] that is neither [None] nor [NoneType], the
    calls made for [Optional[t]] are those made for [t]. *)
Theorem register_field_Optional (t : pyobj) (name : string) (dflt : pyobj)
    (descr help : option string) :
  is_None t = false ->
  is_NoneType t = false ->
  register_field name
    {| annotation := Optional t; default := dflt; description := descr |} help
  = register_field name
      {| annotation := t; default := dflt; description := descr |} help.
Proof.
  intros HNone HNoneType. unfold register_field, field_base_type.
  cbn [annotation]. rewrite contains_list_type_Optional, HNone.
  cbn [is_None Optional negb]. now rewrite get_base_type_Optional.
Qed.

Lemma register_field_Optional_witness :
  is_None (PAlias o_list [PClass c_str]) = false
  /\ is_NoneType (PAlias o_list [PClass c_str]) = false
  /\ register_field "tags"
       {| annotation := Optional (PAlias o_list [PClass c_str]);
          default := PNone; description := None |} None
     = register_field "tags"
         {| annotation := PAlias o_list [PClass c_str];
            default := PNone; description := None |} None.
Proof.
  split; [reflexivity|]. split; [reflexivity|].
  apply (register_field_Optional (PAlias o_list [PClass c_str]) "tags" PNone None None);
    reflexivity.
Defined.

(** ** Further properties of the boolean coercer *)

Lemma append_cons (c : ascii) (r s : string) :
  String c r ++ s = String c (r ++ s).
Proof. reflexivity. Qed.

Lemma lower_char_isspace (c : ascii) :
  Latin1.isspace (Latin1.lower_char c) = Latin1.isspace c.
Proof. destruct c as [[] [] [] [] [] [] [] []]; vm_compute; reflexivity. Qed.

Lemma lower_char_idempotent (c : ascii) :
  Latin1.lower_char (Latin1.lower_char c) = Latin1.lower_char c.
Proof. destruct c as [[] [] [] [] [] [] [] []]; vm_compute; reflexivity. Qed.

Lemma lower_idempotent (s : string) :
  Latin1.lower (Latin1.lower s) = Latin1.lower s.
Proof.
  induction s as [|c r IH]; simpl; [reflexivity|].
  now rewrite lower_char_idempotent, IH.
Qed.

Lemma lower_append (a b : string) :
  Latin1.lower (a ++ b) = Latin1.lower a ++ Latin1.lower b.
Proof.
  induction a as [|c r IH]; [reflexivity|].
  rewrite append_cons. simpl. now rewrite IH.
Qed.

Lemma all_space_lower (s : string) :
  all_space (Latin1.lower s) = all_space s.
Proof.
  induction s as [|c r IH]; simpl; [reflexivity|].
  now rewrite lower_char_isspace, IH.
Qed.

Lemma lstrip_all_space (p s : string) :
  all_space p = true -> Latin1.lstrip (p ++ s) = Latin1.lstrip s.
Proof.
  induction p as [|c r IH]; intros Hp; [reflexivity|].
  simpl in Hp. apply andb_prop in Hp as [Hc Hr].
  rewrite append_cons. simpl. rewrite Hc. now apply IH.
Qed.

Lemma rstrip_all_space (p : string) :
  all_space p = true -> Latin1.rstrip p = EmptyString.
Proof.
  induction p as [|c r IH]; intros Hp; [reflexivity|].
  simpl in Hp. apply andb_prop in Hp as [Hc Hr].
  simpl. now rewrite (IH Hr), Hc.
Qed.

Lemma rstrip_append (s p : string) :
  all_space p = true -> Latin1.rstrip (s ++ p) = Latin1.rstrip s.
Proof.
  intros Hp. induction s as [|c r IH].
  - simpl. now apply rstrip_all_space.
  - rewrite append_cons. simpl. now rewrite IH.
Qed.

Lemma lstrip_only_space (p : string) :
  all_space p = true -> Latin1.lstrip p = EmptyString.
Proof.
  induction p as [|c r IH]; intros Hp; [reflexivity|].
  simpl in Hp. apply andb_prop in Hp as [Hc Hr]. simpl. rewrite Hc. now apply IH.
Qed.

Lemma strip_append (s p : string) :
  all_space p = true -> Latin1.strip (s ++ p) = Latin1.strip s.
Proof.
  intros Hp. unfold Latin1.strip. induction s as [|c r IH].
  - change (EmptyString ++ p) with p. now rewrite lstrip_only_space.
  - rewrite append_cons. simpl. destruct (Latin1.isspace c); [exact IH|].
    rewrite <- append_cons. now apply rstrip_append.
Qed.

Lemma strip_padded (pre s post : string) :
  all_space pre = true -> all_space post = true ->
  Latin1.strip (pre ++ s ++ post) = Latin1.strip s.
Proof.
  intros Hpre Hpost. unfold Latin1.strip at 1.
  rewrite lstrip_all_space by exact Hpre.
  now apply strip_append.
Qed.

Lemma parse_bool_arg_outcome (bytes_decode : list Byte.byte -> result string)
    (str_lower str_strip : string -> string) (str_of_obj : pyobj -> string)
    (s1 s2 : string) :
  str_strip (str_lower s1) = str_strip (str_lower s2) ->
  outcome (parse_bool_arg bytes_decode str_lower str_strip str_of_obj (PStr s1))
  = outcome (parse_bool_arg bytes_decode str_lower str_strip str_of_obj (PStr s2)).
Proof.
  intros Heq. rewrite !parse_bool_arg_str, Heq.
  repeat case_decide; reflexivity.
Qed.

(** X5. With the text builtins of CPython on code points below 256, the
    answer of [parse_bool_arg] - true, false or failure - does not change
    when white space is put around the text or when the text is put in
    lower case. *)
Theorem parse_bool_arg_padding (pre s post : string) :
  all_space pre = true ->
  all_space post = true ->
  forall (bytes_decode : list Byte.byte -> result string)
         (str_of_obj : pyobj -> string),
    let parse :=
      parse_bool_arg bytes_decode Latin1.lower Latin1.strip str_of_obj in
    outcome (parse (PStr (pre ++ s ++ post))) = outcome (parse (PStr s))
    /\ outcome (parse (PStr (Latin1.lower s))) = outcome (parse (PStr s)).
Proof.
  intros Hpre Hpost bytes_decode str_of_obj parse. subst parse. split.
  - apply parse_bool_arg_outcome. rewrite !lower_append.
    apply strip_padded; now rewrite all_space_lower.
  - apply parse_bool_arg_outcome. now rewrite lower_idempotent.
Qed.

Lemma parse_bool_arg_padding_witness :
  all_space (String (ascii_of_nat 9) " ") = true
  /\ all_space (String (ascii_of_nat 10) EmptyString) = true
  /\ forall (bytes_decode : list Byte.byte -> result string)
            (str_of_obj : pyobj -> string),
      let parse :=
        parse_bool_arg bytes_decode Latin1.lower Latin1.strip str_of_obj in
      outcome (parse (PStr (String (ascii_of_nat 9) " " ++ "Yes"
                              ++ String (ascii_of_nat 10) EmptyString)))
      = outcome (parse (PStr "Yes"))
      /\ outcome (parse (PStr (Latin1.lower "Yes"))) = outcome (parse (PStr "Yes")).
Proof.
  split; [reflexivity|]. split; [reflexivity|].
  apply (parse_bool_arg_padding (String (ascii_of_nat 9) " ") "Yes"
           (String (ascii_of_nat 10) EmptyString)); reflexivity.
Defined.

(** ** Further properties of the two compilers *)

Lemma compile_field_shape (str_of_obj : pyobj -> string) (name : string)
    (field : FieldInfo) :
  match field_base_type field with
  | Ret _ =>
      exists spec,
        compile_field str_of_obj name field = Ret [spec]
        /\ a_flag spec = "--" ++ name
        /\ a_dest spec = Some name
  | Raise e => compile_field str_of_obj name field = Raise e
  end.
Proof.
  unfold compile_field, register_field.
  destruct (field_base_type field) as [base_type|e]; [|reflexivity].
  simpl. destruct (is_bool base_type); simpl; eexists; repeat split.
Qed.

Lemma compile_schema_flag_names (str_of_obj : pyobj -> string)
    (fields : list (string * FieldInfo)) :
  match compile_schema str_of_obj fields with
  | Ret specs =>
      List.map a_flag specs = List.map (fun nf => "--" ++ fst nf) fields
      /\ List.map a_dest specs = List.map (fun nf => Some (fst nf)) fields
  | Raise _ => True
  end.
Proof.
  induction fields as [|[name field] rest IH]; simpl; [now split|].
  pose proof (compile_field_shape str_of_obj name field) as Hf.
  destruct (field_base_type field) as [base_type|e].
  - destruct Hf as (spec & -> & Hflag & Hdest). simpl.
    destruct (compile_schema str_of_obj rest) as [more|e]; simpl; [|trivial].
    destruct IH as [IH1 IH2]. now rewrite Hflag, Hdest, IH1, IH2.
  - now rewrite Hf.
Qed.

(** X6. When the loop over the fields completes, it has registered one
    flag per field, in the order of the fields: [--name], stored under
    [name]. *)
Theorem compile_schema_flags (str_of_obj : pyobj -> string)
    (fields : list (string * FieldInfo)) :
  match compile_schema str_of_obj fields with
  | Ret specs =>
      List.map a_flag specs = List.map (fun nf => "--" ++ fst nf) fields
      /\ List.map a_dest specs = List.map (fun nf => Some (fst nf)) fields
  | Raise _ => True
  end.
Proof. apply compile_schema_flag_names. Qed.

(** X7. A field whose annotation does not resolve keeps the loop over the
    fields from completing: the loop ends with an exception, wherever the
    field stands among the others. *)
Theorem compile_schema_raises (fields : list (string * FieldInfo))
    (name : string) (field : FieldInfo) (e : exc) :
  In (name, field) fields ->
  field_base_type field = Raise e ->
  forall str_of_obj : pyobj -> string,
  exists e', compile_schema str_of_obj fields = Raise e'.
Proof.
  intros Hin Hr str_of_obj.
  induction fields as [|[n f] rest IH]; [contradiction|]. simpl.
  pose proof (compile_field_shape str_of_obj n f) as Hf.
  destruct (field_base_type f) as [base_type|e0] eqn:Hb.
  - destruct Hf as (spec & -> & _). simpl.
    destruct Hin as [Heq|Hin]; [injection Heq as -> ->; congruence|].
    destruct (IH Hin) as [e' ->]. now exists e'.
  - rewrite Hf. now exists e0.
Qed.

Lemma compile_schema_raises_witness :
  In ("stop", {| annotation := PGeneric g_List; default := PNone;
                 description := None |})
     [ ("model", {| annotation := PClass c_str; default := PNone;
                    description := None |});
       ("stop", {| annotation := PGeneric g_List; default := PNone;
                   description := None |}) ]
  /\ field_base_type {| annotation := PGeneric g_List; default := PNone;
                        description := None |} = Raise AttributeError
  /\ forall str_of_obj : pyobj -> string,
      exists e',
        compile_schema str_of_obj
          [ ("model", {| annotation := PClass c_str; default := PNone;
                         description := None |});
            ("stop", {| annotation := PGeneric g_List; default := PNone;
                        description := None |}) ] = Raise e'.
Proof.
  split; [right; left; reflexivity|]. split; [reflexivity|].
  apply (compile_schema_raises
           [ ("model", {| annotation := PClass c_str; default := PNone;
                          description := None |});
             ("stop", {| annotation := PGeneric g_List; default := PNone;
                         description := None |}) ]
           "stop"
           {| annotation := PGeneric g_List; default := PNone; description := None |}
           AttributeError);
    [right; left; reflexivity | reflexivity].
Defined.

Lemma compile_schema_In (str_of_obj : pyobj -> string)
    (fields : list (string * FieldInfo)) (specs : list add_argument)
    (a : add_argument) :
  compile_schema str_of_obj fields = Ret specs ->
  In a specs ->
  exists name, In name (List.map fst fields) /\ a_flag a = "--" ++ name.
Proof.
  intros Hc Hin.
  pose proof (compile_schema_flag_names str_of_obj fields) as Hf.
  rewrite Hc in Hf. destruct Hf as [Hf _].
  apply (in_map a_flag) in Hin. rewrite Hf in Hin.
  apply in_map_iff in Hin as ([name field] & Heq & Hin).
  exists name. split; [|now rewrite <- Heq].
  apply in_map_iff. now exists (name, field).
Qed.

Lemma compile_uvicorn_In (py_repr : pyobj -> string)
    (params : list (string * Param)) (b : add_argument) :
  In b (compile_uvicorn py_repr params) ->
  exists param_name,
    In param_name (List.map fst params)
    /\ param_name <> "app"
    /\ a_flag b = "--uvicorn-" ++ param_name.
Proof.
  induction params as [|[param_name param] params IH]; [contradiction|].
  rewrite compile_uvicorn_cons. intros Hin. apply in_app_or in Hin as [Hin|Hin].
  - unfold compile_param in Hin.
    destruct (String.eqb_spec param_name "app") as [|Hne]; [contradiction|].
    destruct Hin as [<-|[]]. exists param_name.
    split; [now left | now split].
  - destruct (IH Hin) as (p & Hp & Hne & Hflag). exists p.
    split; [now right | now split].
Qed.

Lemma no_dash_uvicorn (param_name : string) :
  no_dash ("uvicorn-" ++ param_name) = false.
Proof. reflexivity. Qed.

Lemma flags_apart (fields : list (string * FieldInfo)) :
  forallb (fun nf => no_dash (fst nf)) fields = true ->
  forall (str_of_obj py_repr : pyobj -> string) (params : list (string * Param)),
    match compile_schema str_of_obj fields with
    | Ret specs =>
        Forall (fun a =>
                  Forall (fun b => a_flag a <> a_flag b)
                         (compile_uvicorn py_repr params))
               specs
    | Raise _ => True
    end.
Proof.
  intros Hnames str_of_obj py_repr params.
  destruct (compile_schema str_of_obj fields) as [specs|e] eqn:Hc; [|trivial].
  apply List.Forall_forall. intros a Ha.
  apply List.Forall_forall. intros b Hb Heq.
  destruct (compile_schema_In _ _ _ _ Hc Ha) as (name & Hname & Hfa).
  destruct (compile_uvicorn_In _ _ _ Hb) as (p & _ & _ & Hfb).
  rewrite Hfa, Hfb in Heq.
  change (String "-" (String "-" name)
          = String "-" (String "-" ("uvicorn-" ++ p))) in Heq.
  injection Heq as ->.
  apply in_map_iff in Hname as ([n f] & Hn & Hin). simpl in Hn. subst n.
  rewrite forallb_forall in Hnames. specialize (Hnames _ Hin).
  cbn [fst] in Hnames. rewrite no_dash_uvicorn in Hnames. discriminate.
Qed.

(** X8. The two families of flags never meet: when no field name has a
    dash in it, no flag registered for a field is a flag registered for a
    parameter of [uvicorn.run]. *)
Theorem flags_never_collide (fields : list (string * FieldInfo)) :
  forallb (fun nf => no_dash (fst nf)) fields = true ->
  forall (str_of_obj py_repr : pyobj -> string) (params : list (string * Param)),
    match compile_schema str_of_obj fields with
    | Ret specs =>
        Forall (fun a =>
                  Forall (fun b => a_flag a <> a_flag b)
                         (compile_uvicorn py_repr params))
               specs
    | Raise _ => True
    end.
Proof. apply flags_apart. Qed.

Lemma flags_never_collide_witness :
  forallb (fun nf => no_dash (fst nf))
    [ ("host", {| annotation := PClass c_str; default := PStr "localhost";
                  description := Some "Listen address" |});
      ("n_ctx", {| annotation := PClass c_int; default := PInt 2048;
                   description := None |}) ] = true
  /\ forall (str_of_obj py_repr : pyobj -> string)
            (params : list (string * Param)),
      match compile_schema str_of_obj
              [ ("host", {| annotation := PClass c_str; default := PStr "localhost";
                            description := Some "Listen address" |});
                ("n_ctx", {| annotation := PClass c_int; default := PInt 2048;
                             description := None |}) ] with
      | Ret specs =>
          Forall (fun a =>
                    Forall (fun b => a_flag a <> a_flag b)
                           (compile_uvicorn py_repr params))
                 specs
      | Raise _ => True
      end.
Proof.
  split; [reflexivity|].
  apply (flags_never_collide
           [ ("host", {| annotation := PClass c_str; default := PStr "localhost";
                         description := Some "Listen address" |});
             ("n_ctx", {| annotation := PClass c_int; default := PInt 2048;
                          description := None |}) ]).
  reflexivity.
Defined.

Lemma dash_to_underscore_no_dash (s : string) :
  no_dash s = true -> dash_to_underscore s = s.
Proof.
  induction s as [|c r IH]; intros Hs; [reflexivity|].
  simpl in Hs. apply andb_prop in Hs as [Hc Hr]. simpl.
  apply negb_true_iff in Hc. now rewrite Hc, IH.
Qed.

Lemma argparse_dest_uvicorn (param_name : string) :
  argparse_dest ("--uvicorn-" ++ param_name)
  = "uvicorn_" ++ dash_to_underscore param_name.
Proof. reflexivity. Qed.

(** X9. The flag of a parameter of [uvicorn.run] and the partition fit
    together: a value other than [None] that [argparse] stores for the
    flag [--uvicorn-p] comes out of the partition under the key [p], and
    is not passed to [Settings]. *)
Theorem uvicorn_flag_round_trip (param_name : string) (v : pyobj) :
  no_dash param_name = true ->
  param_name <> "app" ->
  v <> PNone ->
  forall (py_repr : pyobj -> string) (param : Param)
         (vars_args : gmap string pyobj),
  exists spec,
    compile_param py_repr param_name param = [spec]
    /\ uvicorn_args (<[argparse_dest (a_flag spec) := v]> vars_args) !! param_name
       = Some v
    /\ settings_kwargs (<[argparse_dest (a_flag spec) := v]> vars_args)
         !! argparse_dest (a_flag spec) = None.
Proof.
  intros Hdash Happ Hv py_repr param vars_args. unfold compile_param.
  destruct (String.eqb_spec param_name "app") as [|_]; [contradiction|].
  eexists. split; [reflexivity|]. cbn [a_flag].
  rewrite argparse_dest_uvicorn, dash_to_underscore_no_dash by exact Hdash.
  split.
  - apply uvicorn_args_lookup. split; [apply lookup_insert_eq | exact Hv].
  - destruct (settings_kwargs _ !! _) as [w|] eqn:Hw; [|reflexivity].
    apply settings_kwargs_lookup in Hw as (_ & _ & Hw).
    now rewrite startswith_app in Hw.
Qed.

Lemma uvicorn_flag_round_trip_witness :
  no_dash "log_level" = true
  /\ "log_level" <> "app"
  /\ PStr "debug" <> PNone
  /\ forall (py_repr : pyobj -> string) (param : Param)
            (vars_args : gmap string pyobj),
      exists spec,
        compile_param py_repr "log_level" param = [spec]
        /\ uvicorn_args (<[argparse_dest (a_flag spec) := PStr "debug"]> vars_args)
             !! "log_level" = Some (PStr "debug")
        /\ settings_kwargs (<[argparse_dest (a_flag spec) := PStr "debug"]> vars_args)
             !! argparse_dest (a_flag spec) = None.
Proof.
  split; [reflexivity|]. split; [discriminate|]. split; [discriminate|].
  apply (uvicorn_flag_round_trip "log_level" (PStr "debug"));
    [reflexivity | discriminate | discriminate].
Defined.

(** ** Further properties of the partition and of the launch values *)

Lemma lookup_from_Some {A : Type} (m1 m2 : gmap string A) :
  (forall k v, m1 !! k = Some v <-> m2 !! k = Some v) -> m1 = m2.
Proof. intros H. apply map_eq. intros k. apply option_eq. apply H. Qed.

(** X10. The partition keeps no [None] and sorts once and for all: neither
    mapping holds [None]; no key of the settings starts with [uvicorn_];
    partitioning the settings again changes nothing and leaves nothing for
    the launch values; and a namespace holding only [None] gives two empty
    mappings. *)
Theorem partition_settled (vars_args : gmap string pyobj) :
  (forall k : string,
      settings_kwargs vars_args !! k <> Some PNone
      /\ uvicorn_args vars_args !! k <> Some PNone)
  /\ (forall (k : string) (v : pyobj),
         settings_kwargs vars_args !! k = Some v -> startswith k "uvicorn_" = false)
  /\ settings_kwargs (settings_kwargs vars_args) = settings_kwargs vars_args
  /\ uvicorn_args (settings_kwargs vars_args) = ∅
  /\ settings_kwargs ((fun _ => PNone) <$> vars_args) = ∅
  /\ uvicorn_args ((fun _ => PNone) <$> vars_args) = ∅.
Proof.
  split; [|split; [|split; [|split; [|split]]]].
  - intros k. split; intros Hk.
    + apply settings_kwargs_lookup in Hk as (_ & Hne & _). now apply Hne.
    + apply uvicorn_args_lookup in Hk as (_ & Hne). now apply Hne.
  - intros k v Hk. now apply settings_kwargs_lookup in Hk as (_ & _ & Hp).
  - apply lookup_from_Some. intros k v. rewrite !settings_kwargs_lookup. tauto.
  - apply lookup_from_Some. intros k v.
    rewrite uvicorn_args_lookup, settings_kwargs_lookup, lookup_empty.
    rewrite startswith_app. split; [intros [(_ & _ & H) _] | intros H]; discriminate.
  - apply lookup_from_Some. intros k v.
    rewrite settings_kwargs_lookup, lookup_fmap, lookup_empty.
    split; [|discriminate]. intros (Hk & Hne & _).
    destruct (vars_args !! k); simpl in Hk; [|discriminate].
    injection Hk as <-. now contradiction Hne.
  - apply lookup_from_Some. intros k v.
    rewrite uvicorn_args_lookup, lookup_fmap, lookup_empty.
    split; [|discriminate]. intros (Hk & Hne).
    destruct (vars_args !! _); simpl in Hk; [|discriminate].
    injection Hk as <-. now contradiction Hne.
Qed.

Section LaunchValues.

Variable py_repr : pyobj -> string.
Variable int_of_str : string -> option Z.
Variable int_of_bytes : list Byte.byte -> option Z.

Let merge := merge_environment py_repr int_of_str int_of_bytes.

Lemma merge_environment_keys (environ : gmap string string)
    (ua : gmap string pyobj) :
  match merge environ ua with
  | Ret launch =>
      launch !! "host" = Some (launch_host environ ua)
      /\ (exists z : Z, launch !! "port" = Some (PInt z))
      /\ (forall k : string, k <> "host" -> k <> "port" -> launch !! k = ua !! k)
  | Raise e => e = TypeError \/ exists msg, e = ValueError msg
  end.
Proof.
  unfold merge. rewrite merge_environment_unfold.
  pose proof (py_int_is_int py_repr int_of_str int_of_bytes
                (os_getenv environ "PORT" (dict_get ua "port" (PInt 8000)))) as Hint.
  unfold launch_port.
  destruct (py_int _ _ _ (os_getenv _ _ _)) as [p|e] eqn:Hp; simpl.
  - destruct Hint as [z ->]. split; [|split].
    + rewrite lookup_insert_ne by discriminate. apply lookup_insert_eq.
    + exists z. apply lookup_insert_eq.
    + intros k Hh Hpk. now rewrite !lookup_insert_ne by congruence.
  - unfold py_int in Hp.
    destruct (os_getenv _ _ _) as [| | |s|b| | | |]; try discriminate;
      try (injection Hp as <-; now left).
    + destruct (int_of_str s); [discriminate|]. injection Hp as <-.
      right. now eexists.
    + destruct (int_of_bytes b); [discriminate|]. injection Hp as <-.
      right. now eexists.
Qed.

Lemma merge_environment_PORT (environ : gmap string string)
    (ua : gmap string pyobj) (p : string) :
  merge (<["PORT" := p]> environ) ua
  = match int_of_str p with
    | Some z =>
        Ret (<["port" := PInt z]>
               (<["host" := launch_host (<["PORT" := p]> environ) ua]> ua))
    | None =>
        Raise (ValueError ("invalid literal for int() with base 10: "
                           ++ py_repr (PStr p)))
    end.
Proof.
  unfold merge. rewrite merge_environment_unfold, launch_port_env.
  unfold py_int. now destruct (int_of_str p).
Qed.

End LaunchValues.

(** X11. When the two assignments of lines 122-123 complete, the launch
    values hold the resolved host under [host], an [int] under [port], and
    every other key as the partition left it; when they do not, the
    exception is the [TypeError] or [ValueError] of [int]. *)
Theorem merge_environment_result
    (py_repr : pyobj -> string) (int_of_str : string -> option Z)
    (int_of_bytes : list Byte.byte -> option Z)
    (environ : gmap string string) (vars_args : gmap string pyobj) :
  match merge_environment py_repr int_of_str int_of_bytes environ
          (uvicorn_args vars_args) with
  | Ret launch =>
      launch !! "host" = Some (launch_host environ (uvicorn_args vars_args))
      /\ (exists z : Z, launch !! "port" = Some (PInt z))
      /\ (forall (k : string) (v : pyobj),
             k <> "host" -> k <> "port" ->
             (launch !! k = Some v
              <-> vars_args !! ("uvicorn_" ++ k) = Some v /\ v <> PNone))
  | Raise e => e = TypeError \/ exists msg, e = ValueError msg
  end.
Proof.
  pose proof (merge_environment_keys py_repr int_of_str int_of_bytes environ
                (uvicorn_args vars_args)) as Hm.
  destruct (merge_environment _ _ _ _ _) as [launch|e]; [|exact Hm].
  destruct Hm as (Hh & Hp & Hk). split; [exact Hh|]. split; [exact Hp|].
  intros k v Hkh Hkp. rewrite (Hk k Hkh Hkp). apply uvicorn_args_lookup.
Qed.

(** X12. Once [PORT] is in the environment, the port given on the command
    line plays no part: the launch values are built when [PORT] is an
    integer literal, whatever the command line holds under [port], and the
    script stops with [ValueError] when it is not, even with a valid port
    on the command line. *)
Theorem PORT_decides_alone
    (py_repr : pyobj -> string) (int_of_str : string -> option Z)
    (int_of_bytes : list Byte.byte -> option Z)
    (environ : gmap string string) (ua : gmap string pyobj)
    (p : string) (v : pyobj) :
  merge_environment py_repr int_of_str int_of_bytes
    (<["PORT" := p]> environ) (<["port" := v]> ua)
  = match int_of_str p with
    | Some z =>
        Ret (<["port" := PInt z]>
               (<["host" := launch_host (<["PORT" := p]> environ) ua]> ua))
    | None =>
        Raise (ValueError ("invalid literal for int() with base 10: "
                           ++ py_repr (PStr p)))
    end.
Proof.
  rewrite merge_environment_PORT.
  destruct (int_of_str p) as [z|]; [|reflexivity]. f_equal.
  assert (Hhost : launch_host (<["PORT" := p]> environ) (<["port" := v]> ua)
                  = launch_host (<["PORT" := p]> environ) ua).
  { unfold launch_host, dict_get. now rewrite lookup_insert_ne by discriminate. }
  rewrite Hhost. apply map_eq. intros k.
  destruct (decide (k = "port")) as [->|Hp]; [now rewrite !lookup_insert_eq|].
  rewrite !(lookup_insert_ne _ "port") by congruence.
  destruct (decide (k = "host")) as [->|Hh]; [now rewrite !lookup_insert_eq|].
  rewrite !(lookup_insert_ne _ "host") by congruence.
  now rewrite lookup_insert_ne by congruence.
Qed.

(** ** Further properties of the registered flags *)

Lemma compile_uvicorn_flag_names (py_repr : pyobj -> string)
    (params : list (string * Param)) :
  List.map a_flag (compile_uvicorn py_repr params)
  = List.map (fun n => "--uvicorn-" ++ n)
      (List.filter (fun n => negb (String.eqb n "app")) (List.map fst params)).
Proof.
  induction params as [|[param_name param] params IH]; [reflexivity|].
  rewrite compile_uvicorn_cons, List.map_app, IH. unfold compile_param. simpl.
  now destruct (String.eqb param_name "app").
Qed.

Lemma NoDup_filter_list {A : Type} (f : A -> bool) (l : list A) :
  NoDup l -> NoDup (List.filter f l).
Proof.
  induction 1 as [|x l Hx Hl IH]; simpl; [constructor|].
  destruct (f x); [|exact IH]. constructor; [|exact IH].
  rewrite list_elem_of_In, filter_In. intros [Hin _]. apply Hx.
  now apply list_elem_of_In.
Qed.

Lemma NoDup_map_prefix (p : string) (l : list string) :
  NoDup l -> NoDup (List.map (fun n => p ++ n) l).
Proof.
  assert (Hinj : forall x y : string, p ++ x = p ++ y -> x = y).
  { intros x y Hxy. induction p as [|c p IH]; [exact Hxy|].
    apply IH. now injection Hxy. }
  induction 1 as [|x l Hx Hl IH]; simpl; constructor; [|exact IH].
  rewrite list_elem_of_In, in_map_iff. intros (y & Heq & Hy).
  apply Hinj in Heq. subst y. apply Hx. now apply list_elem_of_In.
Qed.

(** X13. No flag is registered twice: when the field names are distinct
    and without a dash, and the parameter names are distinct, the flags
    registered by the two loops together are pairwise distinct. *)
Theorem flags_distinct (fields : list (string * FieldInfo))
    (params : list (string * Param)) :
  NoDup (List.map fst fields) ->
  forallb (fun nf => no_dash (fst nf)) fields = true ->
  NoDup (List.map fst params) ->
  forall str_of_obj py_repr : pyobj -> string,
    match compile_schema str_of_obj fields with
    | Ret specs =>
        NoDup (List.map a_flag (app specs (compile_uvicorn py_repr params)))
    | Raise _ => True
    end.
Proof.
  intros Hfields Hdash Hparams str_of_obj py_repr.
  pose proof (compile_schema_flag_names str_of_obj fields) as Hflags.
  pose proof (flags_apart fields Hdash str_of_obj py_repr params) as Hcross.
  destruct (compile_schema str_of_obj fields) as [specs|e]; [|trivial].
  destruct Hflags as [Hflags _].
  rewrite List.map_app. apply NoDup_app. split; [|split].
  - rewrite Hflags.
    change (List.map (fun nf : string * FieldInfo => "--" ++ fst nf) fields)
      with (List.map (fun nf : string * FieldInfo => (fun n => "--" ++ n) (fst nf)) fields).
    rewrite <- (List.map_map fst (fun n => "--" ++ n)).
    now apply NoDup_map_prefix.
  - intros flag Ha Hb.
    apply list_elem_of_In, in_map_iff in Ha as (a & <- & Ha).
    apply list_elem_of_In, in_map_iff in Hb as (b & Heq & Hb).
    rewrite List.Forall_forall in Hcross. specialize (Hcross a Ha).
    rewrite List.Forall_forall in Hcross. now apply (Hcross b Hb).
  - rewrite compile_uvicorn_flag_names.
    now apply NoDup_map_prefix, NoDup_filter_list.
Qed.

Lemma flags_distinct_witness :
  NoDup (List.map fst
           [ ("host", {| annotation := PClass c_str; default := PStr "localhost";
                         description := None |});
             ("port", {| annotation := PClass c_int; default := PInt 8000;
                         description := None |}) ])
  /\ forallb (fun nf => no_dash (fst nf))
       [ ("host", {| annotation := PClass c_str; default := PStr "localhost";
                     description := None |});
         ("port", {| annotation := PClass c_int; default := PInt 8000;
                     description := None |}) ] = true
  /\ NoDup (List.map fst
              [ ("app", {| p_annotation := None; p_default := None |});
                ("host", {| p_annotation := Some (PClass c_str);
                            p_default := Some (PStr "127.0.0.1") |});
                ("port", {| p_annotation := Some (PClass c_int);
                            p_default := Some (PInt 8000) |}) ])
  /\ forall str_of_obj py_repr : pyobj -> string,
      match compile_schema str_of_obj
              [ ("host", {| annotation := PClass c_str; default := PStr "localhost";
                            description := None |});
                ("port", {| annotation := PClass c_int; default := PInt 8000;
                            description := None |}) ] with
      | Ret specs =>
          NoDup (List.map a_flag
                   (app specs
                      (compile_uvicorn py_repr
                         [ ("app", {| p_annotation := None; p_default := None |});
                           ("host", {| p_annotation := Some (PClass c_str);
                                       p_default := Some (PStr "127.0.0.1") |});
                           ("port", {| p_annotation := Some (PClass c_int);
                                       p_default := Some (PInt 8000) |}) ])))
      | Raise _ => True
      end.
Proof.
  assert (H1 : NoDup ["host"; "port"]) by (apply (bool_decide_unpack _); vm_compute; exact I).
  assert (H2 : NoDup ["app"; "host"; "port"])
    by (apply (bool_decide_unpack _); vm_compute; exact I).
  split; [exact H1|]. split; [reflexivity|]. split; [exact H2|].
  apply (flags_distinct
           [ ("host", {| annotation := PClass c_str; default := PStr "localhost";
                         description := None |});
             ("port", {| annotation := PClass c_int; default := PInt 8000;
                         description := None |}) ]
           [ ("app", {| p_annotation := None; p_default := None |});
             ("host", {| p_annotation := Some (PClass c_str);
                         p_default := Some (PStr "127.0.0.1") |});
             ("port", {| p_annotation := Some (PClass c_int);
                         p_default := Some (PInt 8000) |}) ]);
    [exact H1 | reflexivity | exact H2].
Defined.
